(** * Server.js: registration workflow, authorization guard and account
    registration of the MUTOVUTSS school-management API.

    The Express handlers are embedded as functions in a state-and-exception
    monad over an in-memory picture of the MySQL tables they query.  A write
    that happened before an exception stays in the state, as it does in the
    database when a handler throws half way. *)

From Stdlib Require Import List String Ascii Bool Arith ZArith Lia.
From Stdlib Require Import Permutation Sorted DecimalString.
Import ListNotations.
Open Scope string_scope.

(** ** JavaScript values carried by request bodies and table cells *)

(** The JSON scalars a body field can hold, plus [undefined] for a field that
    is missing.  Numbers are restricted to integers. *)
Inductive value : Type :=
  | VUndefined
  | VNull
  | VBool (b : bool)
  | VNum (n : Z)
  | VStr (s : string).

(** JavaScript truthiness: [!v] is [negb (truthy v)]. *)
Definition truthy (v : value) : bool :=
  match v with
  | VUndefined | VNull => false
  | VBool b => b
  | VNum n => negb (Z.eqb n 0)
  | VStr s => negb (String.eqb s "")
  end.

(** Strict equality [===]. *)
Definition value_eqb (a b : value) : bool :=
  match a, b with
  | VUndefined, VUndefined => true
  | VNull, VNull => true
  | VBool x, VBool y => Bool.eqb x y
  | VNum x, VNum y => Z.eqb x y
  | VStr x, VStr y => String.eqb x y
  | _, _ => false
  end.

(** [Array.prototype.includes] on an array of string literals. *)
Definition includes (l : list string) (v : value) : bool :=
  existsb (fun s => value_eqb (VStr s) v) l.

(** A bound statement parameter: the driver sends [undefined] as NULL. *)
Definition to_sql (v : value) : value :=
  match v with
  | VUndefined => VNull
  | _ => v
  end.

(** The SQL comparison [col = ?]: NULL on either side matches nothing.  The
    collation and the coercion of a bound value to the column type belong to
    the database engine and are not modelled. *)
Definition sql_eq (col param : value) : bool :=
  match col, param with
  | VNull, _ | _, VNull => false
  | VUndefined, _ | _, VUndefined => false
  | _, _ => value_eqb col param
  end.

(** Template-literal interpolation [`${v}`]. *)
Definition interpolate (v : value) : string :=
  match v with
  | VUndefined => "undefined"
  | VNull => "null"
  | VBool true => "true"
  | VBool false => "false"
  | VNum n => NilZero.string_of_int (Z.to_int n)
  | VStr s => s
  end.

(** ** Table rows *)

Record user : Type := mkUser {
  user_id : nat;
  username : value;
  password : value;
  email : value;
  first_name : value;
  last_name : value;
  user_type : value
}.

Record parent_row : Type := mkParent {
  parent_id : nat;
  phone_number : value;
  address : value
}.

Record teacher_row : Type := mkTeacher {
  teacher_id : nat;
  subject_specialization : value;
  hire_date : nat
}.

Record student : Type := mkStudent {
  student_id : nat;
  st_student_name : value;
  st_parent_id : option nat;
  st_parent_name : value;
  st_parent_email : value;
  st_student_dob : value;
  st_grade_level : value;
  st_class_id : value
}.

Record request : Type := mkRequest {
  request_id : nat;
  student_name : value;
  parent_name : value;
  parent_email : value;
  student_dob : value;
  grade_level : value;
  class_id : value;
  status : string;
  requested_at : nat;
  processed_at : option nat
}.

Record notification : Type := mkNotification {
  notification_id : nat;
  n_user_id : nat;
  title : string;
  message : string;
  notification_type : string;
  is_read : bool;
  created_at : nat
}.

(** ** The database

    Each table is the list of its rows in the order the engine returns them;
    the [next_*] fields are the AUTO_INCREMENT counters. *)
Record DB : Type := mkDB {
  users : list user;
  parents : list parent_row;
  teachers : list teacher_row;
  students : list student;
  registration_requests : list request;
  notifications : list notification;
  next_user_id : nat;
  next_student_id : nat;
  next_request_id : nat;
  next_notification_id : nat
}.

(** The rows of every table, without the counters. *)
Definition tables (db : DB) :=
  (users db, parents db, teachers db, students db,
   registration_requests db, notifications db).

(** ** Responses *)

Inductive json : Type :=
  | Message (m : string)
  | MessageError (m : string) (error : string)
  | InvalidUserType (m : string) (validTypes : list string) (received : value)
  | Requests (rows : list request)
  | Notifications (rows : list notification).

Record response : Type := mkResponse {
  res_status : nat;
  res_body : json
}.

(** ** Statements and exceptions *)

(** The SQL statements that the modelled handlers send. *)
Inductive stmt : Type :=
  | SelectUserById
  | SelectUserByUsernameOrEmail
  | InsertUser
  | InsertParent
  | InsertTeacher
  | Commit
  | SelectNotifications
  | UpdateNotificationRead
  | InsertRequest
  | SelectRequests
  | UpdateRequestStatus (new_status : string)
  | SelectRequestById
  | SelectParentByEmail
  | InsertStudent
  | InsertNotification.

Inductive exn : Type :=
  | StorageError (s : stmt)
  | TypeError (what : string)
  | JsonWebTokenError.

Definition error_message (e : exn) : string :=
  match e with
  | StorageError _ => "storage error"
  | TypeError what => what
  | JsonWebTokenError => "invalid token"
  end.

(** ** The handler monad: state that survives an exception *)

Definition M (A : Type) : Type := DB -> (exn + A) * DB.

Definition ret {A} (a : A) : M A := fun db => (inr a, db).

Definition throw {A} (e : exn) : M A := fun db => (inl e, db).

Definition bind {A B} (m : M A) (k : A -> M B) : M B :=
  fun db =>
    match m db with
    | (inl e, db') => (inl e, db')
    | (inr a, db') => k a db'
    end.

Declare Scope handler_scope.
Delimit Scope handler_scope with handler.
Notation "x <- m ;; k" := (bind m (fun x => k))
  (at level 100, m at next level, right associativity) : handler_scope.
Notation "m ;; k" := (bind m (fun _ => k))
  (at level 100, right associativity) : handler_scope.

(** ** Pure table operations *)

(** [UPDATE registration_requests SET status = s, processed_at = NOW()
    WHERE request_id = id]. *)
Definition set_status (s : string) (now : nat) (r : request) : request :=
  mkRequest (request_id r) (student_name r) (parent_name r) (parent_email r)
            (student_dob r) (grade_level r) (class_id r)
            s (requested_at r) (Some now).

Definition update_request_status (s : string) (now id : nat)
    (rows : list request) : list request :=
  map (fun r => if Nat.eqb (request_id r) id then set_status s now r else r)
      rows.

(** [SELECT * FROM registration_requests WHERE request_id = id], first row. *)
Definition find_request (id : nat) (rows : list request) : option request :=
  find (fun r => Nat.eqb (request_id r) id) rows.

(** [SELECT user_id FROM users WHERE email = ? AND user_type = 'parent'],
    first row. *)
Definition is_parent_with_email (e : value) (u : user) : bool :=
  sql_eq (email u) e && sql_eq (user_type u) (VStr "parent").

Definition find_parent (e : value) (rows : list user) : option user :=
  find (is_parent_with_email e) rows.

(** [WHERE username = ? OR email = ?]. *)
Definition has_username_or_email (un em : value) (u : user) : bool :=
  sql_eq (username u) un || sql_eq (email u) em.

(** [ORDER BY requested_at DESC], as a stable insertion sort. *)
Fixpoint insert_desc (r : request) (l : list request) : list request :=
  match l with
  | [] => [r]
  | x :: l' =>
      if Nat.leb (requested_at x) (requested_at r)
      then r :: x :: l'
      else x :: insert_desc r l'
  end.

Fixpoint order_by_requested_at_desc (l : list request) : list request :=
  match l with
  | [] => []
  | r :: l' => insert_desc r (order_by_requested_at_desc l')
  end.

(** Table setters. *)
Definition with_requests (f : list request -> list request) (db : DB) : DB :=
  mkDB (users db) (parents db) (teachers db) (students db)
       (f (registration_requests db)) (notifications db)
       (next_user_id db) (next_student_id db) (next_request_id db)
       (next_notification_id db).

(** Modelled from the spec: the table declaration of [registration_requests]
    is not part of the source; a new row gets the next identifier, status
    [pending], the submission time and no processing time. *)
Definition insert_request (now : nat)
    (sn pn pe dob gl cid : value) (db : DB) : DB :=
  mkDB (users db) (parents db) (teachers db) (students db)
       (registration_requests db ++
          [mkRequest (next_request_id db) (to_sql sn) (to_sql pn) (to_sql pe)
                     (to_sql dob) (to_sql gl) (to_sql cid)
                     "pending" now None])
       (notifications db)
       (next_user_id db) (next_student_id db) (S (next_request_id db))
       (next_notification_id db).

(** Modelled from the spec: the table declaration of [students] is not part
    of the source; the row gets the next identifier. *)
Definition insert_student (sn : value) (pid : option nat)
    (pn pe dob gl cid : value) (db : DB) : DB :=
  mkDB (users db) (parents db) (teachers db)
       (students db ++
          [mkStudent (next_student_id db) (to_sql sn) pid (to_sql pn)
                     (to_sql pe) (to_sql dob) (to_sql gl) (to_sql cid)])
       (registration_requests db) (notifications db)
       (next_user_id db) (S (next_student_id db)) (next_request_id db)
       (next_notification_id db).

(** Modelled from the spec: the table declaration of [notifications] is not
    part of the source; the row gets the next identifier, is unread and is
    stamped with the creation time. *)
Definition insert_notification (now uid : nat) (t m ty : string)
    (db : DB) : DB :=
  mkDB (users db) (parents db) (teachers db) (students db)
       (registration_requests db)
       (notifications db ++
          [mkNotification (next_notification_id db) uid t m ty false now])
       (next_user_id db) (next_student_id db) (next_request_id db)
       (S (next_notification_id db)).

Definition with_notifications
    (f : list notification -> list notification) (db : DB) : DB :=
  mkDB (users db) (parents db) (teachers db) (students db)
       (registration_requests db) (f (notifications db))
       (next_user_id db) (next_student_id db) (next_request_id db)
       (next_notification_id db).

(** [ORDER BY created_at DESC] on notifications. *)
Fixpoint insert_notification_desc (n : notification) (l : list notification)
    : list notification :=
  match l with
  | [] => [n]
  | x :: l' =>
      if Nat.leb (created_at x) (created_at n)
      then n :: x :: l'
      else x :: insert_notification_desc n l'
  end.

Fixpoint order_by_created_at_desc (l : list notification)
    : list notification :=
  match l with
  | [] => []
  | n :: l' => insert_notification_desc n (order_by_created_at_desc l')
  end.

(** Modelled from the spec: the table declaration of [users] is not part of
    the source; the row gets the next identifier, which the driver reports
    as [insertId]. *)
Definition insert_user (un pw em fn ln ut : value) (db : DB) : nat * DB :=
  (next_user_id db,
   mkDB (users db ++
           [mkUser (next_user_id db) (to_sql un) (to_sql pw) (to_sql em)
                   (to_sql fn) (to_sql ln) (to_sql ut)])
        (parents db) (teachers db) (students db)
        (registration_requests db) (notifications db)
        (S (next_user_id db)) (next_student_id db) (next_request_id db)
        (next_notification_id db)).

Definition insert_parent (uid : nat) (phone addr : value) (db : DB) : DB :=
  mkDB (users db) (parents db ++ [mkParent uid (to_sql phone) (to_sql addr)])
       (teachers db) (students db)
       (registration_requests db) (notifications db)
       (next_user_id db) (next_student_id db) (next_request_id db)
       (next_notification_id db).

Definition insert_teacher (uid : nat) (subject : value) (now : nat)
    (db : DB) : DB :=
  mkDB (users db) (parents db)
       (teachers db ++ [mkTeacher uid (to_sql subject) now])
       (students db)
       (registration_requests db) (notifications db)
       (next_user_id db) (next_student_id db) (next_request_id db)
       (next_notification_id db).

(** [conn.rollback()]: the engine puts back the rows as they were when the
    transaction began; an AUTO_INCREMENT value handed out meanwhile is not
    given back. *)
Definition rollback (at_begin current : DB) : DB :=
  mkDB (users at_begin) (parents at_begin) (teachers at_begin)
       (students at_begin) (registration_requests at_begin)
       (notifications at_begin)
       (next_user_id current) (next_student_id current)
       (next_request_id current) (next_notification_id current).

(** ** String helpers of the handlers

    A [string] holds the UTF-8 bytes of the JavaScript string.  A space is
    the byte 32 and nothing else, so [split_space] works on bytes; white
    space of more than one byte is recognised by its encoding. *)

(** [s.split(' ')]. *)
Fixpoint split_space (s : string) : list string :=
  match s with
  | EmptyString => [EmptyString]
  | String c s' =>
      if Ascii.eqb c " "%char then EmptyString :: split_space s'
      else match split_space s' with
           | h :: t => String c h :: t
           | [] => [String c EmptyString]
           end
  end.

(** The white space of one byte: U+0009 to U+000D and U+0020. *)
Definition is_space (c : ascii) : bool :=
  let n := nat_of_ascii c in
  (Nat.leb 9 n && Nat.leb n 13) || Nat.eqb n 32.

(** The white space of two bytes: U+00A0, encoded C2 A0. *)
Definition is_space2 (c1 c2 : ascii) : bool :=
  Nat.eqb (nat_of_ascii c1) 194 && Nat.eqb (nat_of_ascii c2) 160.

(** The white space of three bytes: U+1680 (E1 9A 80), U+2000 to U+200A
    (E2 80 80 to 8A), U+2028 and U+2029 (E2 80 A8, A9), U+202F (E2 80 AF),
    U+205F (E2 81 9F), U+3000 (E3 80 80) and U+FEFF (EF BB BF). *)
Definition is_space3 (c1 c2 c3 : ascii) : bool :=
  let n1 := nat_of_ascii c1 in
  let n2 := nat_of_ascii c2 in
  let n3 := nat_of_ascii c3 in
  (Nat.eqb n1 225 && Nat.eqb n2 154 && Nat.eqb n3 128)
  || (Nat.eqb n1 226 && Nat.eqb n2 128
      && ((Nat.leb 128 n3 && Nat.leb n3 138)
          || Nat.eqb n3 168 || Nat.eqb n3 169 || Nat.eqb n3 175))
  || (Nat.eqb n1 226 && Nat.eqb n2 129 && Nat.eqb n3 159)
  || (Nat.eqb n1 227 && Nat.eqb n2 128 && Nat.eqb n3 128)
  || (Nat.eqb n1 239 && Nat.eqb n2 187 && Nat.eqb n3 191).

(** [s.trimStart()]: drops the white space and line terminators at the
    front. *)
Fixpoint trim_start (s : string) : string :=
  match s with
  | EmptyString => s
  | String c1 r1 =>
      if is_space c1 then trim_start r1
      else
        match r1 with
        | EmptyString => s
        | String c2 r2 =>
            if is_space2 c1 c2 then trim_start r2
            else
              match r2 with
              | EmptyString => s
              | String c3 r3 =>
                  if is_space3 c1 c2 c3 then trim_start r3 else s
              end
        end
  end.

(** [s.trimEnd()]: cuts where only white space follows. *)
Fixpoint trim_end (s : string) : string :=
  match s with
  | EmptyString => EmptyString
  | String c s' =>
      if String.eqb (trim_start s) "" then EmptyString
      else String c (trim_end s')
  end.

(** [s.trim()]. *)
Definition trim (s : string) : string := trim_end (trim_start s).

Definition lower (c : ascii) : ascii :=
  let n := nat_of_ascii c in
  if Nat.leb 65 n && Nat.leb n 90 then ascii_of_nat (n + 32) else c.

(** [s.toLowerCase()] on the letters A to Z; the bytes of other characters
    are kept.  No character outside A to Z has a lower case that is a letter
    of [student], [parent], [teacher] or [admin], so the test against
    [validUserTypes] and a value that passes it are those of the source. *)
Fixpoint toLowerCase (s : string) : string :=
  match s with
  | EmptyString => EmptyString
  | String c s' => String (lower c) (toLowerCase s')
  end.

(** ** HTTP requests and routes *)

(** What the handlers read from [req]: the Authorization header, the [:id]
    path parameter (already as the row identifier it is compared with) and
    the fields of the JSON body, [VUndefined] for a field that is absent. *)
Record http_request : Type := mkReq {
  authorization : option string;
  params_id : nat;
  body : string -> value
}.

Definition with_authorization (a : option string) (req : http_request)
    : http_request :=
  mkReq a (params_id req) (body req).

Inductive route : Type :=
  | POST_register
  | GET_notifications
  | PATCH_notifications_read
  | POST_registration_request
  | GET_registration_requests
  | PATCH_registration_requests_approve
  | PATCH_registration_requests_reject.

(** The guard a route is registered with: [None] when the route has no
    [authenticate(...)] middleware, [Some user_types] otherwise. *)
Definition middleware (r : route) : option (list string) :=
  match r with
  | GET_notifications => Some []
  | PATCH_notifications_read => Some []
  | POST_register
  | POST_registration_request
  | GET_registration_requests
  | PATCH_registration_requests_approve
  | PATCH_registration_requests_reject => None
  end.

(** What the guard does with a request: answer it, or call [next()] with
    [req.user] set. *)
Inductive guard_result : Type :=
  | Respond (r : response)
  | Next (u : user).

Definition validUserTypes : list string :=
  ["student"; "parent"; "teacher"; "admin"].

(** ** The handlers *)

Section Server.

Set Default Proof Using "Type".

(** [pool.query] rejects when the engine refuses a statement (a constraint of
    the schema, a lost connection); which statements it refuses, with which
    bound values and in which state, is left open. *)
Variable storage_fails : stmt -> list value -> DB -> bool.

(** [jwt.verify(token, JWT_SECRET)]: the [userId] of the payload, or [None]
    when verification throws.  Tokens are signed by the login handler only,
    with the numeric identifier of a user row. *)
Variable jwt_verify : string -> option nat.

(** [bcrypt.hash(password, 10)]. *)
Variable bcrypt_hash : string -> string.

(** A statement that reads. *)
Definition query_read {A} (s : stmt) (params : list value) (f : DB -> A)
    : M A :=
  fun db =>
    if storage_fails s params db then (inl (StorageError s), db)
    else (inr (f db), db).

(** A statement that writes. *)
Definition query_write (s : stmt) (params : list value) (f : DB -> DB)
    : M unit :=
  fun db =>
    if storage_fails s params db then (inl (StorageError s), db)
    else (inr tt, f db).

(** A property read on the first row of a result: a [TypeError] when the
    result was empty and the row is [undefined]. *)
Definition row_of {A} (row : option A) : M A :=
  match row with
  | Some r => ret r
  | None => throw (TypeError "Cannot read properties of undefined")
  end.

Definition id_param (n : nat) : value := VNum (Z.of_nat n).

Definition opt_id_param (n : option nat) : value :=
  match n with
  | Some k => id_param k
  | None => VNull
  end.

(** *** authenticate *)

Definition bearer_token (req : http_request) : value :=
  match authorization req with
  | None => VUndefined
  | Some h =>
      match nth_error (split_space h) 1 with
      | Some t => VStr t
      | None => VUndefined
      end
  end.

Definition authenticate_try (user_types : list string) (token : string)
    : M guard_result :=
  (decoded <- match jwt_verify token with
              | Some uid => ret uid
              | None => throw JsonWebTokenError
              end ;;
   rows <- query_read SelectUserById [id_param decoded]
             (fun db => filter (fun u => Nat.eqb (user_id u) decoded)
                               (users db)) ;;
   match rows with
   | [] => ret (Respond (mkResponse 401 (Message "User not found")))
   | u :: _ =>
       if negb (Nat.eqb (List.length user_types) 0)
          && negb (includes user_types (user_type u))
       then ret (Respond (mkResponse 403 (Message "Insufficient permissions")))
       else ret (Next u)
   end)%handler.

Definition authenticate (user_types : list string) (req : http_request)
    (db : DB) : guard_result :=
  match bearer_token req with
  | VStr token =>
      if negb (truthy (VStr token))
      then Respond (mkResponse 401 (Message "Authentication required"))
      else match authenticate_try user_types token db with
           | (inr g, _) => g
           | (inl _, _) => Respond (mkResponse 401 (Message "Invalid token"))
           end
  | _ => Respond (mkResponse 401 (Message "Authentication required"))
  end.

(** *** GET /api/notifications and PATCH /api/notifications/:id/read *)

Definition get_notifications (u : user) (db : DB) : response * DB :=
  match query_read SelectNotifications [id_param (user_id u)]
          (fun d => order_by_created_at_desc
                      (filter (fun n => Nat.eqb (n_user_id n) (user_id u))
                              (notifications d))) db with
  | (inr rows, db') => (mkResponse 200 (Notifications rows), db')
  | (inl _, db') =>
      (mkResponse 500 (Message "Failed to fetch notifications"), db')
  end.

Definition mark_read (id uid : nat) (n : notification) : notification :=
  if Nat.eqb (notification_id n) id && Nat.eqb (n_user_id n) uid
  then mkNotification (notification_id n) (n_user_id n) (title n) (message n)
                      (notification_type n) true (created_at n)
  else n.

Definition patch_notifications_read (u : user) (req : http_request) (db : DB)
    : response * DB :=
  match query_write UpdateNotificationRead
          [id_param (params_id req); id_param (user_id u)]
          (with_notifications (map (mark_read (params_id req) (user_id u))))
          db with
  | (inr _, db') => (mkResponse 200 (Message "Notification marked as read"), db')
  | (inl _, db') =>
      (mkResponse 500 (Message "Failed to update notification"), db')
  end.

(** *** POST /api/registration-request *)

Definition post_registration_request (now : nat) (req : http_request)
    (db : DB) : response * DB :=
  let student_name := body req "student_name" in
  let parent_name := body req "parent_name" in
  let parent_email := body req "parent_email" in
  let student_dob := body req "student_dob" in
  let grade_level := body req "grade_level" in
  let class_id := body req "class_id" in
  if negb (truthy student_name) || negb (truthy parent_name)
     || negb (truthy parent_email) || negb (truthy class_id)
  then (mkResponse 400 (Message "All required fields must be provided"), db)
  else
    match query_write InsertRequest
            [student_name; parent_name; parent_email; student_dob;
             grade_level; class_id]
            (insert_request now student_name parent_name parent_email
                            student_dob grade_level class_id) db with
    | (inr _, db') =>
        (mkResponse 201 (Message "Registration request submitted"), db')
    | (inl _, db') =>
        (mkResponse 500 (Message "Failed to submit registration request"), db')
    end.

(** *** GET /api/registration-requests *)

Definition get_registration_requests (db : DB) : response * DB :=
  match query_read SelectRequests []
          (fun d => order_by_requested_at_desc (registration_requests d))
          db with
  | (inr rows, db') => (mkResponse 200 (Requests rows), db')
  | (inl _, db') =>
      (mkResponse 500 (Message "Failed to fetch registration requests"), db')
  end.

(** *** PATCH /api/registration-requests/:id/approve *)

Definition approve_try (now requestId : nat) : M response :=
  (query_write (UpdateRequestStatus "approved") [id_param requestId]
     (with_requests (update_request_status "approved" now requestId)) ;;
   request <- query_read SelectRequestById [id_param requestId]
                (fun db => find_request requestId (registration_requests db)) ;;
   r <- row_of request ;;
   parent <- query_read SelectParentByEmail [parent_email r]
               (fun db => find_parent (parent_email r) (users db)) ;;
   query_write InsertStudent
     [student_name r; opt_id_param (option_map user_id parent);
      parent_name r; parent_email r; student_dob r; grade_level r; class_id r]
     (insert_student (student_name r) (option_map user_id parent)
                     (parent_name r) (parent_email r) (student_dob r)
                     (grade_level r) (class_id r)) ;;
   match parent with
   | Some p =>
       let text := "Your registration request for "
                   ++ interpolate (student_name r) ++ " has been approved." in
       query_write InsertNotification
         [id_param (user_id p); VStr "Registration Approved"; VStr text;
          VStr "request"]
         (insert_notification now (user_id p) "Registration Approved" text
                              "request")
   | None => ret tt
   end ;;
   ret (mkResponse 200 (Message "Request approved and student added.")))%handler.

Definition patch_registration_requests_approve (now : nat)
    (req : http_request) (db : DB) : response * DB :=
  match approve_try now (params_id req) db with
  | (inr res, db') => (res, db')
  | (inl _, db') => (mkResponse 500 (Message "Failed to approve request"), db')
  end.

(** *** PATCH /api/registration-requests/:id/reject *)

Definition reject_try (now requestId : nat) : M response :=
  (query_write (UpdateRequestStatus "rejected") [id_param requestId]
     (with_requests (update_request_status "rejected" now requestId)) ;;
   request <- query_read SelectRequestById [id_param requestId]
                (fun db => find_request requestId (registration_requests db)) ;;
   r <- row_of request ;;
   parent <- query_read SelectParentByEmail [parent_email r]
               (fun db => find_parent (parent_email r) (users db)) ;;
   match parent with
   | Some p =>
       let text := "Your registration request for "
                   ++ interpolate (student_name r) ++ " has been rejected." in
       query_write InsertNotification
         [id_param (user_id p); VStr "Registration Rejected"; VStr text;
          VStr "request"]
         (insert_notification now (user_id p) "Registration Rejected" text
                              "request")
   | None => ret tt
   end ;;
   ret (mkResponse 200 (Message "Request rejected and parent notified.")))%handler.

Definition patch_registration_requests_reject (now : nat)
    (req : http_request) (db : DB) : response * DB :=
  match reject_try now (params_id req) db with
  | (inr res, db') => (res, db')
  | (inl _, db') => (mkResponse 500 (Message "Failed to reject request"), db')
  end.

(** *** POST /api/register *)

(** An INSERT whose [insertId] the handler reads. *)
Definition query_insert (s : stmt) (params : list value)
    (f : DB -> nat * DB) : M nat :=
  fun db =>
    if storage_fails s params db then (inl (StorageError s), db)
    else let (id, db') := f db in (inr id, db').

(** [(user_type || '').trim().toLowerCase()]. *)
Definition normalize_user_type (user_type : value) : M string :=
  if truthy user_type then
    match user_type with
    | VStr s => ret (toLowerCase (trim s))
    | _ => throw (TypeError "trim is not a function")
    end
  else ret (toLowerCase (trim "")).

(** The [try] block between [beginTransaction] and [commit]. *)
Definition register_inserts (now : nat)
    (username hashedPassword email firstName lastName : value)
    (normalizedUserType : string)
    (phone_number address subject_specialization : value) : M response :=
  (userId <- query_insert InsertUser
               [username; hashedPassword; email; firstName; lastName;
                VStr normalizedUserType]
               (insert_user username hashedPassword email firstName lastName
                            (VStr normalizedUserType)) ;;
   (if String.eqb normalizedUserType "parent" then
      query_write InsertParent [id_param userId; phone_number; address]
        (insert_parent userId phone_number address)
    else if String.eqb normalizedUserType "teacher" then
      query_write InsertTeacher
        [id_param userId; subject_specialization; id_param now]
        (insert_teacher userId subject_specialization now)
    else ret tt) ;;
   query_write Commit [] (fun db => db) ;;
   ret (mkResponse 201 (Message "User registered successfully")))%handler.

(** [beginTransaction], the block, and its [catch]: roll back and throw
    again. *)
Definition register_transaction (now : nat)
    (username hashedPassword email firstName lastName : value)
    (normalizedUserType : string)
    (phone_number address subject_specialization : value) : M response :=
  fun at_begin =>
    match register_inserts now username hashedPassword email firstName
            lastName normalizedUserType phone_number address
            subject_specialization at_begin with
    | (inr res, db') => (inr res, db')
    | (inl e, db') => (inl e, rollback at_begin db')
    end.

Definition register_try (now : nat) (req : http_request) : M response :=
  let username := body req "username" in
  let password := body req "password" in
  let confirmPassword := body req "confirmPassword" in
  let email := body req "email" in
  let firstName := body req "firstName" in
  let lastName := body req "lastName" in
  let user_type := body req "user_type" in
  let phone_number := body req "phone_number" in
  let address := body req "address" in
  let subject_specialization := body req "subject_specialization" in
  (normalizedUserType <- normalize_user_type user_type ;;
   if negb (includes validUserTypes (VStr normalizedUserType)) then
     ret (mkResponse 400
            (InvalidUserType "Invalid user type" validUserTypes user_type))
   else if negb (truthy username) || negb (truthy password)
           || negb (truthy email) || negb (truthy firstName)
           || negb (truthy lastName) || negb (truthy user_type) then
     ret (mkResponse 400 (Message "All required fields must be provided"))
   else if negb (value_eqb password confirmPassword) then
     ret (mkResponse 400 (Message "Passwords do not match"))
   else
     existing <- query_read SelectUserByUsernameOrEmail [username; email]
                   (fun db => filter (has_username_or_email username email)
                                     (users db)) ;;
     match existing with
     | _ :: _ =>
         ret (mkResponse 400 (Message "Username or email already exists"))
     | [] =>
         hashedPassword <- match password with
                           | VStr p => ret (VStr (bcrypt_hash p))
                           | _ => throw (TypeError "data must be a string")
                           end ;;
         register_transaction now username hashedPassword email firstName
           lastName normalizedUserType phone_number address
           subject_specialization
     end)%handler.

Definition post_register (now : nat) (req : http_request) (db : DB)
    : response * DB :=
  match register_try now req db with
  | (inr res, db') => (res, db')
  | (inl e, db') =>
      (mkResponse 500 (MessageError "Registration failed" (error_message e)),
       db')
  end.

(** *** The application: a route's guard, then its handler *)

Definition handler (r : route) (now : nat) (req : http_request)
    (req_user : option user) (db : DB) : response * DB :=
  match r with
  | POST_register => post_register now req db
  | GET_notifications =>
      match req_user with
      | Some u => get_notifications u db
      | None => (mkResponse 500 (Message "Failed to fetch notifications"), db)
      end
  | PATCH_notifications_read =>
      match req_user with
      | Some u => patch_notifications_read u req db
      | None => (mkResponse 500 (Message "Failed to update notification"), db)
      end
  | POST_registration_request => post_registration_request now req db
  | GET_registration_requests => get_registration_requests db
  | PATCH_registration_requests_approve =>
      patch_registration_requests_approve now req db
  | PATCH_registration_requests_reject =>
      patch_registration_requests_reject now req db
  end.

Definition app (r : route) (now : nat) (req : http_request) (db : DB)
    : response * DB :=
  match middleware r with
  | None => handler r now req None db
  | Some user_types =>
      match authenticate user_types req db with
      | Respond res => (res, db)
      | Next u => handler r now req (Some u) db
      end
  end.

(** ** What the claims speak about *)

(** No statement is refused. *)
Definition storage_healthy : Prop :=
  forall s params db, storage_fails s params db = false.

(** A NULL cell. *)
Definition is_null (v : value) : bool :=
  match v with
  | VUndefined | VNull => true
  | _ => false
  end.

(** [u] is a user with the parent email of [r] and role parent. *)
Definition parent_account_of (r : request) (u : user) : Prop :=
  email u = parent_email r /\ user_type u = VStr "parent".

(** The student row repeats the fields of the request. *)
Definition populated_from (r : request) (s : student) : Prop :=
  st_student_name s = to_sql (student_name r) /\
  st_parent_name s = to_sql (parent_name r) /\
  st_parent_email s = to_sql (parent_email r) /\
  st_student_dob s = to_sql (student_dob r) /\
  st_grade_level s = to_sql (grade_level r) /\
  st_class_id s = to_sql (class_id r).

(** The bearer credential of [req] resolves to the stored user [u]: the
    header carries a token after its first space, the token verifies, and [u]
    is the first row of [users] with the identifier of its payload. *)
Definition resolves (req : http_request) (db : DB) (u : user) : Prop :=
  exists header token uid (before rest : list user),
    authorization req = Some header /\
    nth_error (split_space header) 1 = Some token /\
    token <> "" /\
    jwt_verify token = Some uid /\
    storage_fails SelectUserById [id_param uid] db = false /\
    users db = (before ++ u :: rest)%list /\
    user_id u = uid /\
    (forall v, In v before -> user_id v <> uid).

(** The role of [u] is one of [user_types]. *)
Definition role_permitted (user_types : list string) (u : user) : Prop :=
  exists s, In s user_types /\ user_type u = VStr s.

(** The order of the listing: a later submission comes first. *)
Definition later_first (a b : request) : Prop :=
  requested_at b <= requested_at a.

(** Both rows exist after a registration that succeeded. *)
Definition registered (db db' : DB) : Prop :=
  exists u,
    users db' = (users db ++ [u])%list /\
    user_id u = next_user_id db /\
    (user_type u = VStr "parent" ->
     exists p, parents db' = (parents db ++ [p])%list /\
               parent_id p = user_id u) /\
    (user_type u = VStr "teacher" ->
     exists t, teachers db' = (teachers db ++ [t])%list /\
               teacher_id t = user_id u).

(** What a run may have done to the table of requests. *)
Inductive requests_effect (now : nat) (req : http_request)
    (old : list request) : route -> list request -> Prop :=
  | effect_none r : requests_effect now req old r old
  | effect_submit q :
      status q = "pending" ->
      requests_effect now req old POST_registration_request
                      (old ++ [q])%list
  | effect_approve :
      requests_effect now req old PATCH_registration_requests_approve
        (update_request_status "approved" now (params_id req) old)
  | effect_reject :
      requests_effect now req old PATCH_registration_requests_reject
        (update_request_status "rejected" now (params_id req) old).

(** ** Sample data *)

Definition never_fails : stmt -> list value -> DB -> bool :=
  fun _ _ _ => false.

Definition mary : user :=
  mkUser 7 (VStr "mary") (VStr "$2b$10$hash") (VStr "mary@example.org")
         (VStr "Mary") (VStr "Uwase") (VStr "parent").

Definition tom : user :=
  mkUser 9 (VStr "tom") (VStr "$2b$10$hash") (VStr "tom@example.org")
         (VStr "Tom") (VStr "Keza") (VStr "teacher").

Definition request_of_mary (st : string) (processed : option nat) : request :=
  mkRequest 1 (VStr "Anna") (VStr "Mary Uwase") (VStr "mary@example.org")
            (VStr "2015-03-02") (VStr "P3") (VNum 4) st 100 processed.

Definition request_of_stranger : request :=
  mkRequest 2 (VStr "Ben") (VStr "Paul Mugabo") (VStr "paul@example.org")
            VNull VNull (VNum 4) "pending" 120 None.

Definition db_with (rows : list request) : DB :=
  mkDB [mary; tom] [mkParent 7 (VStr "0788") VNull] [mkTeacher 9 VNull 50]
       [] rows [] 10 1 3 1.

Definition db_pending : DB :=
  db_with [request_of_mary "pending" None; request_of_stranger].

Definition db_rejected : DB :=
  db_with [request_of_mary "rejected" (Some 150); request_of_stranger].

Definition db_later : DB :=
  mkDB [mary; tom] [] [] [] [] [] 10 1 8 1.

Definition parents_refused : stmt -> list value -> DB -> bool :=
  fun s _ _ =>
    match s with
    | InsertParent => true
    | _ => false
    end.

Definition sample_verify : string -> option nat :=
  fun token =>
    if String.eqb token "token-of-mary" then Some 7
    else if String.eqb token "token-of-tom" then Some 9
    else None.

Definition sample_hash : string -> string :=
  fun p => "$2b$10$" ++ p.

Definition no_body : string -> value := fun _ => VUndefined.

Definition field (k : string) (v : value) (rest : string -> value)
    : string -> value :=
  fun k' => if String.eqb k' k then v else rest k'.

Definition req_id (id : nat) : http_request := mkReq None id no_body.

Definition submission : http_request :=
  mkReq None 0
    (field "student_name" (VStr "Carl")
       (field "parent_name" (VStr "Tom Keza")
          (field "parent_email" (VStr "tom@example.org")
             (field "class_id" (VNum 2) no_body)))).

Definition registration_of_parent : http_request :=
  mkReq None 0
    (field "username" (VStr "paul")
       (field "password" (VStr "secret")
          (field "confirmPassword" (VStr "secret")
             (field "email" (VStr "paul@example.org")
                (field "firstName" (VStr "Paul")
                   (field "lastName" (VStr "Mugabo")
                      (field "user_type" (VStr " Parent ")
                         (field "phone_number" (VStr "0781") no_body)))))))).

Definition bearer (token : string) : http_request :=
  mkReq (Some ("Bearer " ++ token)) 0 no_body.

Definition submission_without_class : http_request :=
  mkReq None 0
    (field "student_name" (VStr "Carl")
       (field "parent_name" (VStr "Tom Keza")
          (field "parent_email" (VStr "tom@example.org") no_body))).

(** ** Parents administration: POST, PUT and DELETE /api/parents *)

(** The statements of the three handlers. *)
Inductive parents_stmt : Type :=
  | InsertParentUser
  | InsertParentDetails
  | UpdateParentUser
  | UpdateParentDetails
  | DeleteParentDetails
  | DeleteParentUser.

(** Which of them the engine refuses, as [storage_fails] above. *)
Variable parents_storage_fails : parents_stmt -> list value -> DB -> bool.

Definition with_users (f : list user -> list user) (db : DB) : DB :=
  mkDB (f (users db)) (parents db) (teachers db) (students db)
       (registration_requests db) (notifications db)
       (next_user_id db) (next_student_id db) (next_request_id db)
       (next_notification_id db).

Definition with_parents (f : list parent_row -> list parent_row) (db : DB)
    : DB :=
  mkDB (users db) (f (parents db)) (teachers db) (students db)
       (registration_requests db) (notifications db)
       (next_user_id db) (next_student_id db) (next_request_id db)
       (next_notification_id db).

(** [WHERE user_id = ? AND user_type = 'parent']. *)
Definition is_parent_user (id : nat) (u : user) : bool :=
  Nat.eqb (user_id u) id && sql_eq (user_type u) (VStr "parent").

(** [UPDATE users SET first_name=?, last_name=?, email=? WHERE ...]. *)
Definition update_parent_user (id : nat) (fn ln em : value) (u : user)
    : user :=
  if is_parent_user id u
  then mkUser (user_id u) (username u) (password u) (to_sql em) (to_sql fn)
              (to_sql ln) (user_type u)
  else u.

(** [UPDATE parents SET phone_number=?, address=? WHERE parent_id=?]. *)
Definition update_parent_details (id : nat) (phone addr : value)
    (p : parent_row) : parent_row :=
  if Nat.eqb (parent_id p) id
  then mkParent (parent_id p) (to_sql phone) (to_sql addr)
  else p.

(** POST /api/parents: the user row, then the details row, with no
    transaction around them.  The columns the INSERT does not name
    ([username], [password]) are NULL. *)
Definition post_parents (req : http_request) (db : DB) : response * DB :=
  let first_name := body req "first_name" in
  let last_name := body req "last_name" in
  let email := body req "email" in
  let phone_number := body req "phone_number" in
  let address := body req "address" in
  if parents_storage_fails InsertParentUser [first_name; last_name; email] db
  then (mkResponse 500 (Message "Failed to add parent"), db)
  else
    let (parent_id, db1) :=
      insert_user VNull VNull email first_name last_name (VStr "parent") db in
    if parents_storage_fails InsertParentDetails
         [id_param parent_id; phone_number; address] db1
    then (mkResponse 500 (Message "Failed to add parent"), db1)
    else (mkResponse 201 (Message "Parent added"),
          insert_parent parent_id phone_number address db1).

(** PUT /api/parents/:id. *)
Definition put_parents (req : http_request) (db : DB) : response * DB :=
  let id := params_id req in
  let first_name := body req "first_name" in
  let last_name := body req "last_name" in
  let email := body req "email" in
  let phone_number := body req "phone_number" in
  let address := body req "address" in
  if parents_storage_fails UpdateParentUser
       [first_name; last_name; email; id_param id] db
  then (mkResponse 500 (Message "Failed to update parent"), db)
  else
    let db1 :=
      with_users (map (update_parent_user id first_name last_name email))
                 db in
    if parents_storage_fails UpdateParentDetails
         [phone_number; address; id_param id] db1
    then (mkResponse 500 (Message "Failed to update parent"), db1)
    else (mkResponse 200 (Message "Parent updated"),
          with_parents (map (update_parent_details id phone_number address))
                       db1).

(** DELETE /api/parents/:id: the details row first, then the user row if
    its type is parent. *)
Definition delete_parents (req : http_request) (db : DB) : response * DB :=
  let id := params_id req in
  if parents_storage_fails DeleteParentDetails [id_param id] db
  then (mkResponse 500 (Message "Failed to delete parent"), db)
  else
    let db1 :=
      with_parents (filter (fun p => negb (Nat.eqb (parent_id p) id))) db in
    if parents_storage_fails DeleteParentUser [id_param id] db1
    then (mkResponse 500 (Message "Failed to delete parent"), db1)
    else (mkResponse 200 (Message "Parent deleted"),
          with_users (filter (fun u => negb (is_parent_user id u))) db1).

(** ** Further notions used by the properties *)

(** A string without a space. *)
Fixpoint no_space (s : string) : bool :=
  match s with
  | EmptyString => true
  | String c s' => negb (Ascii.eqb c " "%char) && no_space s'
  end.

(** Two user rows that the uniqueness check of registration would take for
    the same account: equal user names or equal emails, as SQL compares. *)
Definition account_clash (u v : user) : bool :=
  sql_eq (username u) (username v) || sql_eq (email u) (email v).

Definition unique_accounts (l : list user) : Prop :=
  ForallOrdPairs (fun u v => account_clash u v = false) l.

(** A later notification comes first. *)
Definition newer_first (a b : notification) : Prop :=
  created_at b <= created_at a.

(** [n'] is [n], possibly with the read flag set. *)
Definition same_but_read (n n' : notification) : Prop :=
  notification_id n' = notification_id n /\
  n_user_id n' = n_user_id n /\
  title n' = title n /\
  message n' = message n /\
  notification_type n' = notification_type n /\
  created_at n' = created_at n /\
  (is_read n' = is_read n \/ is_read n' = true).

(** More sample data. *)

Definition students_refused : stmt -> list value -> DB -> bool :=
  fun s _ _ =>
    match s with
    | InsertStudent => true
    | _ => false
    end.

Definition parents_never_fail : parents_stmt -> list value -> DB -> bool :=
  fun _ _ _ => false.

Definition details_refused : parents_stmt -> list value -> DB -> bool :=
  fun s _ _ =>
    match s with
    | InsertParentDetails => true
    | _ => false
    end.

Definition note (id uid : nat) (read : bool) (at_ : nat) : notification :=
  mkNotification id uid "Registration Approved" "text" "request" read at_.

Definition db_notes : DB :=
  mkDB [mary; tom] [mkParent 7 (VStr "0788") VNull] [mkTeacher 9 VNull 50]
       [] [] [note 1 7 false 10; note 2 9 false 20; note 3 7 false 30]
       10 1 1 4.

Definition new_parent : http_request :=
  mkReq None 7
    (field "first_name" (VStr "Paul")
       (field "last_name" (VStr "Mugabo")
          (field "email" (VStr "paul@example.org")
             (field "phone_number" (VStr "0781") no_body)))).

(** U+00A0 in front of [Admin]. *)
Definition nbsp_admin : string :=
  String (ascii_of_nat 194) (String (ascii_of_nat 160) "Admin").

Definition registration_of_admin : http_request :=
  mkReq None 0
    (field "username" (VStr "root")
       (field "password" (VStr "secret")
          (field "confirmPassword" (VStr "secret")
             (field "email" (VStr "root@example.org")
                (field "firstName" (VStr "Ada")
                   (field "lastName" (VStr "Ingabire")
                      (field "user_type" (VStr nbsp_admin) no_body))))))).

Definition registration_of (user_type : value) (confirm : string)
    : http_request :=
  mkReq None 0
    (field "username" (VStr "paul")
       (field "password" (VStr "secret")
          (field "confirmPassword" (VStr confirm)
             (field "email" (VStr "mary@example.org")
                (field "firstName" (VStr "Paul")
                   (field "lastName" (VStr "Mugabo")
                      (field "user_type" user_type no_body))))))).

(** ** Helper lemmas *)

Lemma value_eqb_eq (a b : value) : value_eqb a b = true <-> a = b.
Proof.
  destruct a, b; simpl; split; intro H; try discriminate; try reflexivity.
  - apply Bool.eqb_prop in H. now subst.
  - injection H as ->. apply Bool.eqb_reflx.
  - apply Z.eqb_eq in H. now subst.
  - injection H as ->. apply Z.eqb_refl.
  - apply String.eqb_eq in H. now subst.
  - injection H as ->. apply String.eqb_refl.
Qed.

Lemma sql_eq_eq (col param : value) :
  is_null param = false -> (sql_eq col param = true <-> col = param).
Proof.
  intro Hp. rewrite <- value_eqb_eq.
  destruct param; try discriminate; destruct col; simpl;
    (split; intro H; solve [discriminate | exact H]).
Qed.

Lemma is_parent_with_email_spec (r : request) (u : user) :
  is_null (parent_email r) = false ->
  (is_parent_with_email (parent_email r) u = true <-> parent_account_of r u).
Proof.
  intro Hn. unfold is_parent_with_email, parent_account_of.
  rewrite Bool.andb_true_iff.
  rewrite (sql_eq_eq (email u) _ Hn).
  rewrite (sql_eq_eq (user_type u) (VStr "parent") eq_refl).
  tauto.
Qed.

Lemma db_eta (db : DB) :
  mkDB (users db) (parents db) (teachers db) (students db)
       (registration_requests db) (notifications db)
       (next_user_id db) (next_student_id db) (next_request_id db)
       (next_notification_id db) = db.
Proof. destruct db; reflexivity. Qed.

Lemma find_request_update (s : string) (now i j : nat) (rows : list request) :
  find_request j (update_request_status s now i rows)
  = option_map (fun q => if Nat.eqb (request_id q) i
                         then set_status s now q else q)
               (find_request j rows).
Proof.
  unfold find_request, update_request_status.
  induction rows as [|q rows IH]; simpl; [reflexivity|].
  destruct (Nat.eqb (request_id q) i) eqn:Ei; simpl;
    (destruct (Nat.eqb (request_id q) j); simpl;
     [now rewrite Ei | exact IH]).
Qed.

Lemma find_request_id (j : nat) (rows : list request) (q : request) :
  find_request j rows = Some q -> request_id q = j.
Proof.
  intro H. apply find_some in H. destruct H as [_ H].
  now apply Nat.eqb_eq in H.
Qed.

Lemma update_unknown_request (s : string) (now i : nat)
    (rows : list request) :
  find_request i rows = None -> update_request_status s now i rows = rows.
Proof.
  unfold find_request, update_request_status.
  induction rows as [|q rows IH]; simpl; [reflexivity|].
  destruct (Nat.eqb (request_id q) i); [discriminate|].
  intro H. now rewrite (IH H).
Qed.

(** Running the handlers step by step. *)
Ltac run_handler :=
  unfold bind, query_write, query_read, query_insert, row_of, ret, throw;
  simpl.

(** ** The registration workflow *)

(** C3: approving an identifier that names no stored request is answered
    with the error response of the handler (status 500), and the database,
    hence the students and the notifications, is left as it was, whatever
    the storage does. *)
Theorem approve_unknown_request_fails (now : nat) (req : http_request)
    (db : DB) :
  find_request (params_id req) (registration_requests db) = None ->
  patch_registration_requests_approve now req db
  = (mkResponse 500 (Message "Failed to approve request"), db).
Proof.
  intro Hnone.
  unfold patch_registration_requests_approve, approve_try. run_handler.
  destruct (storage_fails (UpdateRequestStatus "approved") _ db);
    [reflexivity|].
  unfold with_requests.
  rewrite (update_unknown_request _ _ _ _ Hnone), db_eta.
  destruct (storage_fails SelectRequestById _ db); [reflexivity|].
  now rewrite Hnone.
Qed.

(** C5: a submission in which the student name, the parent name, the parent
    email or the class identifier is missing is answered with status 400 and
    leaves the database unchanged. *)
Theorem submit_missing_field_rejected (now : nat) (req : http_request)
    (db : DB) :
  body req "student_name" = VUndefined \/
  body req "parent_name" = VUndefined \/
  body req "parent_email" = VUndefined \/
  body req "class_id" = VUndefined ->
  post_registration_request now req db
  = (mkResponse 400 (Message "All required fields must be provided"), db).
Proof.
  intro H. unfold post_registration_request.
  destruct H as [H | [H | [H | H]]]; rewrite H; simpl;
    rewrite ?Bool.orb_true_r; reflexivity.
Qed.

(** C1: approving a stored request succeeds whenever the storage accepts the
    statements, and every approval that succeeds inserts exactly one student
    row, filled from the request; its parent identifier is that of a user
    with the parent email of the request and role parent when there is one
    and NULL when there is none; exactly one notification, addressed to that
    user, is inserted in the first case and none in the second. *)
Theorem approve_creates_student_and_notification (now : nat)
    (req : http_request) (db : DB) (r : request) :
  find_request (params_id req) (registration_requests db) = Some r ->
  is_null (parent_email r) = false ->
  (storage_healthy ->
   fst (patch_registration_requests_approve now req db)
   = mkResponse 200 (Message "Request approved and student added.")) /\
  (res_status (fst (patch_registration_requests_approve now req db)) = 200 ->
   exists s,
     students (snd (patch_registration_requests_approve now req db))
     = (students db ++ [s])%list /\
     populated_from r s /\
     ((forall u, In u (users db) -> ~ parent_account_of r u) ->
      st_parent_id s = None /\
      notifications (snd (patch_registration_requests_approve now req db))
      = notifications db) /\
     ((exists u, In u (users db) /\ parent_account_of r u) ->
      exists p n,
        In p (users db) /\ parent_account_of r p /\
        st_parent_id s = Some (user_id p) /\
        notifications (snd (patch_registration_requests_approve now req db))
        = (notifications db ++ [n])%list /\
        n_user_id n = user_id p /\ title n = "Registration Approved")).
Proof.
  intros Hfind Hnull.
  unfold patch_registration_requests_approve, approve_try. run_handler.
  split.
  - intro Hok. rewrite !Hok. simpl.
    rewrite find_request_update, Hfind. simpl. rewrite !Hok.
    destruct (find_parent _ _); simpl; rewrite ?Hok; reflexivity.
  - destruct (storage_fails (UpdateRequestStatus "approved") _ db);
      [discriminate|].
    destruct (storage_fails SelectRequestById _ _); [discriminate|].
    simpl. rewrite find_request_update, Hfind. simpl.
    rewrite (find_request_id _ _ _ Hfind), Nat.eqb_refl. simpl.
    destruct (storage_fails SelectParentByEmail _ _); [discriminate|].
    destruct (storage_fails InsertStudent _ _); [discriminate|].
    destruct (find_parent (parent_email r) (users db)) as [p|] eqn:Hp.
    + simpl. destruct (storage_fails InsertNotification _ _);
        [discriminate|].
      simpl. intros _. eexists. split; [reflexivity|].
      split; [repeat split|].
      apply find_some in Hp. destruct Hp as [Hin Hp].
      apply (is_parent_with_email_spec r p Hnull) in Hp.
      split.
      * intro Hno. destruct (Hno p Hin Hp).
      * intros _. eexists p, _.
        repeat split; try reflexivity; try apply Hp. exact Hin.
    + simpl. intros _. eexists. split; [reflexivity|].
      split; [repeat split|].
      split.
      * intros _. split; reflexivity.
      * intros [u [Hin Hu]].
        apply (is_parent_with_email_spec r u Hnull) in Hu.
        unfold find_parent in Hp.
        rewrite (find_none _ _ Hp u Hin) in Hu. discriminate.
Qed.

(** Rejecting never touches the [students] table, whatever the storage
    does. *)
Lemma reject_keeps_students (now : nat) (req : http_request) (db : DB) :
  students (snd (patch_registration_requests_reject now req db))
  = students db.
Proof.
  unfold patch_registration_requests_reject, reject_try. run_handler.
  destruct (storage_fails (UpdateRequestStatus "rejected") _ db);
    [reflexivity|].
  destruct (storage_fails SelectRequestById _ _); [reflexivity|].
  destruct (find_request _ _) as [q|]; [|reflexivity].
  destruct (storage_fails SelectParentByEmail _ _); [reflexivity|].
  destruct (find_parent _ _) as [p|]; [|reflexivity].
  destruct (storage_fails InsertNotification _ _); reflexivity.
Qed.

(** C4: rejecting creates no student row, whatever happens.  On a stored
    request it succeeds whenever the storage accepts the statements, and
    every rejection that succeeds sets the status to rejected and stamps the
    processing time, leaves every other request and every other table as it
    was, and inserts a rejection notification exactly when a user with the
    parent email of the request and role parent exists. *)
Theorem reject_marks_and_notifies (now : nat) (req : http_request)
    (db : DB) (r : request) :
  find_request (params_id req) (registration_requests db) = Some r ->
  is_null (parent_email r) = false ->
  students (snd (patch_registration_requests_reject now req db))
  = students db /\
  (storage_healthy ->
   fst (patch_registration_requests_reject now req db)
   = mkResponse 200 (Message "Request rejected and parent notified.")) /\
  (res_status (fst (patch_registration_requests_reject now req db)) = 200 ->
   exists r',
     find_request (params_id req)
       (registration_requests
          (snd (patch_registration_requests_reject now req db))) = Some r' /\
     r' = set_status "rejected" now r /\
     status r' = "rejected" /\
     processed_at r' = Some now /\
     (forall j, j <> params_id req ->
        find_request j
          (registration_requests
             (snd (patch_registration_requests_reject now req db)))
        = find_request j (registration_requests db)) /\
     List.length
       (registration_requests
          (snd (patch_registration_requests_reject now req db)))
     = List.length (registration_requests db) /\
     users (snd (patch_registration_requests_reject now req db)) = users db /\
     parents (snd (patch_registration_requests_reject now req db))
     = parents db /\
     teachers (snd (patch_registration_requests_reject now req db))
     = teachers db /\
     ((forall u, In u (users db) -> ~ parent_account_of r u) ->
      notifications (snd (patch_registration_requests_reject now req db))
      = notifications db) /\
     ((exists u, In u (users db) /\ parent_account_of r u) ->
      exists p n,
        In p (users db) /\ parent_account_of r p /\
        notifications (snd (patch_registration_requests_reject now req db))
        = (notifications db ++ [n])%list /\
        n_user_id n = user_id p /\ title n = "Registration Rejected")).
Proof.
  intros Hfind Hnull.
  split; [apply reject_keeps_students|].
  assert (Hother : forall j, j <> params_id req ->
            find_request j (update_request_status "rejected" now
                              (params_id req) (registration_requests db))
            = find_request j (registration_requests db)).
  { intros j Hj. rewrite find_request_update.
    destruct (find_request j (registration_requests db)) as [q|] eqn:Hq;
      [|reflexivity].
    simpl. rewrite (find_request_id _ _ _ Hq).
    apply Nat.eqb_neq in Hj. now rewrite Hj. }
  assert (Hlen : List.length (update_request_status "rejected" now
                                (params_id req) (registration_requests db))
                 = List.length (registration_requests db)).
  { unfold update_request_status. apply length_map. }
  assert (Hself : find_request (params_id req)
                    (update_request_status "rejected" now (params_id req)
                       (registration_requests db))
                  = Some (set_status "rejected" now r)).
  { rewrite find_request_update, Hfind. simpl.
    now rewrite (find_request_id _ _ _ Hfind), Nat.eqb_refl. }
  unfold patch_registration_requests_reject, reject_try. run_handler.
  split.
  - intro Hok. rewrite !Hok. simpl. rewrite Hself. simpl. rewrite !Hok.
    destruct (find_parent _ _); simpl; rewrite ?Hok; reflexivity.
  - destruct (storage_fails (UpdateRequestStatus "rejected") _ db);
      [discriminate|].
    destruct (storage_fails SelectRequestById _ _); [discriminate|].
    simpl. rewrite Hself. simpl.
    destruct (storage_fails SelectParentByEmail _ _); [discriminate|].
    destruct (find_parent (parent_email r) (users db)) as [p|] eqn:Hp.
    + simpl. destruct (storage_fails InsertNotification _ _);
        [discriminate|].
      simpl. intros _. eexists. split; [exact Hself|].
      do 3 (split; [reflexivity|]). split; [exact Hother|].
      split; [exact Hlen|]. do 3 (split; [reflexivity|]).
      apply find_some in Hp. destruct Hp as [Hin Hp].
      apply (is_parent_with_email_spec r p Hnull) in Hp.
      split.
      * intro Hno. destruct (Hno p Hin Hp).
      * intros _. eexists p, _.
        repeat split; try reflexivity; try apply Hp. exact Hin.
    + simpl. intros _. eexists. split; [exact Hself|].
      do 3 (split; [reflexivity|]). split; [exact Hother|].
      split; [exact Hlen|]. do 3 (split; [reflexivity|]).
      split.
      * intros _. reflexivity.
      * intros [u [Hin Hu]].
        apply (is_parent_with_email_spec r u Hnull) in Hu.
        unfold find_parent in Hp.
        rewrite (find_none _ _ Hp u Hin) in Hu. discriminate.
Qed.

Lemma truthy_to_sql (v : value) : truthy v = true -> to_sql v = v.
Proof. destruct v; simpl; intro H; try discriminate; reflexivity. Qed.

(** C6, as amended: a submission whose four required fields are all present
    and truthy, and whose insert the storage accepts, appends exactly one
    request with status pending, keeps every other table, and is answered
    with status 201 and a confirmation message; the answer does not carry
    the identifier of the new request. *)
Theorem submit_persists_pending_request (now : nat) (req : http_request)
    (db : DB) :
  truthy (body req "student_name") = true ->
  truthy (body req "parent_name") = true ->
  truthy (body req "parent_email") = true ->
  truthy (body req "class_id") = true ->
  storage_fails InsertRequest
    [body req "student_name"; body req "parent_name";
     body req "parent_email"; body req "student_dob";
     body req "grade_level"; body req "class_id"] db = false ->
  exists db' q,
    post_registration_request now req db
    = (mkResponse 201 (Message "Registration request submitted"), db') /\
    registration_requests db' = (registration_requests db ++ [q])%list /\
    status q = "pending" /\
    request_id q = next_request_id db /\
    requested_at q = now /\
    processed_at q = None /\
    student_name q = body req "student_name" /\
    parent_name q = body req "parent_name" /\
    parent_email q = body req "parent_email" /\
    class_id q = body req "class_id" /\
    (users db', parents db', teachers db', students db', notifications db')
    = (users db, parents db, teachers db, students db, notifications db).
Proof.
  intros Hs Hp He Hc Hok.
  unfold post_registration_request, query_write.
  rewrite Hs, Hp, He, Hc, Hok. simpl.
  eexists; eexists; split; [reflexivity|]. simpl.
  rewrite (truthy_to_sql _ Hs), (truthy_to_sql _ Hp), (truthy_to_sql _ He),
    (truthy_to_sql _ Hc).
  repeat split; reflexivity.
Qed.

(** ** Listing *)

Lemma insert_desc_perm (r : request) (l : list request) :
  Permutation (insert_desc r l) (r :: l).
Proof.
  induction l as [|x l IH]; simpl; [apply Permutation_refl|].
  destruct (Nat.leb (requested_at x) (requested_at r)).
  - apply Permutation_refl.
  - apply perm_trans with (x :: r :: l).
    + now apply perm_skip.
    + apply perm_swap.
Qed.

Lemma order_by_requested_at_desc_perm (l : list request) :
  Permutation (order_by_requested_at_desc l) l.
Proof.
  induction l as [|r l IH]; simpl; [apply perm_nil|].
  apply perm_trans with (r :: order_by_requested_at_desc l).
  - apply insert_desc_perm.
  - now apply perm_skip.
Qed.

Lemma insert_desc_sorted (r : request) (l : list request) :
  StronglySorted later_first l -> StronglySorted later_first (insert_desc r l).
Proof.
  induction 1 as [|x l Hs IH Hx]; simpl.
  - constructor; constructor.
  - destruct (Nat.leb (requested_at x) (requested_at r)) eqn:E.
    + apply Nat.leb_le in E. constructor.
      * now constructor.
      * constructor; [exact E|].
        apply Forall_forall. intros y Hy.
        rewrite Forall_forall in Hx. specialize (Hx y Hy).
        unfold later_first in *. lia.
    + apply Nat.leb_gt in E. constructor; [exact IH|].
      apply Forall_forall. intros y Hy.
      apply (Permutation_in _ (insert_desc_perm r l)) in Hy.
      destruct Hy as [<- | Hy].
      * unfold later_first. lia.
      * rewrite Forall_forall in Hx. now apply Hx.
Qed.

Lemma order_by_requested_at_desc_sorted (l : list request) :
  StronglySorted later_first (order_by_requested_at_desc l).
Proof.
  induction l as [|r l IH]; simpl; [constructor|].
  now apply insert_desc_sorted.
Qed.

(** C7: when the storage answers the query, the listing is answered with
    status 200 and every stored request, whatever its status, each as often
    as it is stored, ordered by submission time from the latest to the
    earliest; the database is not changed. *)
Theorem list_returns_all_requests_latest_first (db : DB) :
  storage_fails SelectRequests [] db = false ->
  exists rows,
    get_registration_requests db = (mkResponse 200 (Requests rows), db) /\
    Permutation rows (registration_requests db) /\
    (forall q, In q (registration_requests db) -> In q rows) /\
    StronglySorted later_first rows.
Proof.
  intro Hok. unfold get_registration_requests, query_read. rewrite Hok.
  eexists; split; [reflexivity|].
  split; [apply order_by_requested_at_desc_perm|].
  split; [|apply order_by_requested_at_desc_sorted].
  intros q Hq.
  apply Permutation_in with (l := registration_requests db); [|exact Hq].
  apply Permutation_sym, order_by_requested_at_desc_perm.
Qed.

(** ** The guard *)

(** C8: the submit, list, approve and reject routes carry no guard: what
    the application answers and what it does to the database is the same
    whatever Authorization header the request carries, a missing one
    included. *)
Theorem registration_routes_ignore_credential (now : nat)
    (req : http_request) (db : DB) (a1 a2 : option string) :
  middleware POST_registration_request = None /\
  middleware GET_registration_requests = None /\
  middleware PATCH_registration_requests_approve = None /\
  middleware PATCH_registration_requests_reject = None /\
  app POST_registration_request now (with_authorization a1 req) db
  = app POST_registration_request now (with_authorization a2 req) db /\
  app GET_registration_requests now (with_authorization a1 req) db
  = app GET_registration_requests now (with_authorization a2 req) db /\
  app PATCH_registration_requests_approve now (with_authorization a1 req) db
  = app PATCH_registration_requests_approve now (with_authorization a2 req) db
  /\
  app PATCH_registration_requests_reject now (with_authorization a1 req) db
  = app PATCH_registration_requests_reject now (with_authorization a2 req) db.
Proof.
  repeat split; reflexivity.
Qed.

Lemma includes_spec (l : list string) (v : value) :
  includes l v = true <-> exists s, In s l /\ v = VStr s.
Proof.
  unfold includes. rewrite existsb_exists. split.
  - intros [s [Hin Hs]]. apply value_eqb_eq in Hs. eauto.
  - intros [s [Hin Hs]]. exists s. split; [exact Hin|].
    apply value_eqb_eq. now symmetry.
Qed.

Lemma filter_first_row {A} (p : A -> bool) (l : list A) (x : A)
    (l' : list A) :
  filter p l = x :: l' ->
  exists before rest,
    l = (before ++ x :: rest)%list /\ p x = true /\
    forall y, In y before -> p y = false.
Proof.
  induction l as [|a l IH]; simpl; [discriminate|].
  destruct (p a) eqn:Ea.
  - intro H. injection H as -> _. exists [], l.
    split; [reflexivity|]. split; [exact Ea|]. intros y [].
  - intro H. destruct (IH H) as [b [r [-> [Hx Hb]]]].
    exists (a :: b), r. split; [reflexivity|]. split; [exact Hx|].
    intros y [<- | Hy]; [exact Ea | now apply Hb].
Qed.

Lemma filter_skips_before {A} (p : A -> bool) (before : list A) (x : A)
    (rest : list A) :
  (forall y, In y before -> p y = false) -> p x = true ->
  filter p (before ++ x :: rest) = x :: filter p rest.
Proof.
  intros Hb Hx. induction before as [|a b IH]; simpl.
  - now rewrite Hx.
  - rewrite (Hb a (or_introl eq_refl)). apply IH.
    intros y Hy. apply Hb. now right.
Qed.

(** What the guard does once the credential has resolved to [u]. *)
Lemma authenticate_resolved (user_types : list string) (req : http_request)
    (db : DB) (u : user) :
  resolves req db u ->
  authenticate user_types req db
  = if negb (Nat.eqb (List.length user_types) 0)
       && negb (includes user_types (user_type u))
    then Respond (mkResponse 403 (Message "Insufficient permissions"))
    else Next u.
Proof.
  intros [h [t [uid [b [rest [Ha [Ht [Hne [Hv [Hok [Hu [Hid Hb]]]]]]]]]]]].
  unfold authenticate, bearer_token. rewrite Ha, Ht.
  assert (Htr : truthy (VStr t) = true).
  { simpl. destruct (String.eqb t "") eqn:E; [|reflexivity].
    apply String.eqb_eq in E. contradiction. }
  rewrite Htr. simpl.
  unfold authenticate_try. run_handler. rewrite Hv, Hok, Hu.
  rewrite filter_skips_before.
  - destruct (negb (Nat.eqb (List.length user_types) 0)
              && negb (includes user_types (user_type u))); reflexivity.
  - intros y Hy. apply Nat.eqb_neq. now apply Hb.
  - apply Nat.eqb_eq. exact Hid.
Qed.

(** A guard that does not answer 401 has resolved the credential. *)
Lemma authenticate_unresolved (user_types : list string) (req : http_request)
    (db : DB) :
  (exists m, authenticate user_types req db
             = Respond (mkResponse 401 (Message m)))
  \/ exists u, resolves req db u.
Proof.
  unfold authenticate, bearer_token.
  destruct (authorization req) as [h|] eqn:Ha; [|left; eauto].
  destruct (nth_error (split_space h) 1) as [t|] eqn:Ht; [|left; eauto].
  destruct (truthy (VStr t)) eqn:Htr; simpl; [|left; eauto].
  unfold authenticate_try. run_handler.
  destruct (jwt_verify t) as [uid|] eqn:Hv; [|left; eauto].
  destruct (storage_fails SelectUserById [id_param uid] db) eqn:Hok;
    [left; eauto|].
  destruct (filter (fun u => Nat.eqb (user_id u) uid) (users db))
    as [|u l] eqn:Hf; [left; eauto|].
  right. exists u.
  destruct (filter_first_row _ _ _ _ Hf) as [b [rest [Hu [Hid Hb]]]].
  exists h, t, uid, b, rest. repeat split; try assumption.
  - intros ->. discriminate.
  - now apply Nat.eqb_eq.
  - intros v Hv'. apply Nat.eqb_neq. now apply Hb.
Qed.

(** C9: the guard answers 401 when the bearer credential is absent or does
    not resolve to a stored user; it answers 403 when a non-empty set of
    roles is configured and the role of the resolved user is not in it;
    otherwise, in particular for every resolved user when the set is empty,
    it lets the request through and the application runs the wrapped
    handler with the resolved user. *)
Theorem authenticate_guard (user_types : list string) (req : http_request)
    (db : DB) :
  (authorization req = None ->
   authenticate user_types req db
   = Respond (mkResponse 401 (Message "Authentication required"))) /\
  ((forall u, ~ resolves req db u) ->
   exists m, authenticate user_types req db
             = Respond (mkResponse 401 (Message m))) /\
  (forall u,
     resolves req db u ->
     (user_types <> [] -> ~ role_permitted user_types u ->
      authenticate user_types req db
      = Respond (mkResponse 403 (Message "Insufficient permissions"))) /\
     (user_types = [] \/ role_permitted user_types u ->
      authenticate user_types req db = Next u /\
      forall r now,
        middleware r = Some user_types ->
        app r now req db = handler r now req (Some u) db)).
Proof.
  split; [|split].
  - intro Ha. unfold authenticate, bearer_token. now rewrite Ha.
  - intro Hno.
    destruct (authenticate_unresolved user_types req db) as [H | [u Hu]];
      [exact H | destruct (Hno u Hu)].
  - intros u Hu. pose proof (authenticate_resolved user_types req db u Hu) as E.
    split.
    + intros Hne Hrole. rewrite E.
      destruct user_types as [|s l]; [contradiction|].
      destruct (includes (s :: l) (user_type u)) eqn:Hi; [|reflexivity].
      apply includes_spec in Hi. destruct Hrole. exact Hi.
    + intros Hpass.
      assert (Hnext : authenticate user_types req db = Next u).
      { rewrite E. destruct Hpass as [-> | Hrole]; [reflexivity|].
        apply includes_spec in Hrole. rewrite Hrole.
        now rewrite Bool.andb_false_r. }
      split; [exact Hnext|].
      intros r now Hm. unfold app. now rewrite Hm, Hnext.
Qed.

(** ** Account registration *)

Lemma rollback_tables (at_begin current : DB) :
  tables (rollback at_begin current) = tables at_begin.
Proof. reflexivity. Qed.

Lemma register_transaction_atomic (now : nat)
    (un pw em fn ln : value) (ut : string) (ph ad su : value) (db : DB) :
  match register_transaction now un pw em fn ln ut ph ad su db with
  | (inl _, db') => tables db' = tables db
  | (inr res, db') => res_status res = 201 /\ registered db db'
  end.
Proof.
  unfold register_transaction, register_inserts. run_handler.
  destruct (storage_fails InsertUser _ db); [apply rollback_tables|].
  destruct (String.eqb ut "parent") eqn:Ep.
  - unfold query_write.
    destruct (storage_fails InsertParent _ _); [apply rollback_tables|].
    destruct (storage_fails Commit _ _); [apply rollback_tables|].
    split; [reflexivity|]. eexists. simpl.
    split; [reflexivity|]. split; [reflexivity|]. split.
    + intros _. eexists. split; reflexivity.
    + apply String.eqb_eq in Ep. subst ut. discriminate.
  - destruct (String.eqb ut "teacher") eqn:Et.
    + unfold query_write.
      destruct (storage_fails InsertTeacher _ _); [apply rollback_tables|].
      destruct (storage_fails Commit _ _); [apply rollback_tables|].
      split; [reflexivity|]. eexists. simpl.
      split; [reflexivity|]. split; [reflexivity|]. split.
      * apply String.eqb_eq in Et. subst ut. discriminate.
      * intros _. eexists. split; reflexivity.
    + unfold ret.
      destruct (storage_fails Commit _ _); [apply rollback_tables|].
      split; [reflexivity|]. eexists. simpl.
      split; [reflexivity|]. split; [reflexivity|]. split.
      * intro H. injection H as ->. discriminate.
      * intro H. injection H as ->. discriminate.
Qed.

Lemma register_try_atomic (now : nat) (req : http_request) (db : DB) :
  match register_try now req db with
  | (inl _, db') => tables db' = tables db
  | (inr res, db') =>
      (res_status res = 400 /\ db' = db)
      \/ (res_status res = 201 /\ registered db db')
  end.
Proof.
  unfold register_try, normalize_user_type.
  destruct (truthy (body req "user_type")) eqn:Htype.
  - destruct (body req "user_type") as [| |b|n|ut] eqn:Eut;
      try discriminate; try reflexivity.
    unfold bind at 1. unfold ret at 1.
    destruct (negb (includes validUserTypes _)); [left; now split|].
    destruct (_ || _); [left; now split|].
    destruct (negb (value_eqb _ _)); [left; now split|].
    unfold bind at 1, query_read.
    destruct (storage_fails SelectUserByUsernameOrEmail _ db);
      [reflexivity|].
    destruct (filter _ _); [|left; now split].
    unfold bind at 1.
    destruct (body req "password") as [| |b|n|pw];
      try reflexivity.
    unfold ret at 1.
    pose proof (register_transaction_atomic now (body req "username")
                  (VStr (bcrypt_hash pw)) (body req "email")
                  (body req "firstName") (body req "lastName")
                  (toLowerCase (trim ut)) (body req "phone_number")
                  (body req "address") (body req "subject_specialization")
                  db) as H.
    destruct (register_transaction _ _ _ _ _ _ _ _ _ _ db) as [[e|res] d].
    + exact H.
    + right. exact H.
  - unfold bind at 1. unfold ret at 1. left. now split.
Qed.

(** C10: account registration is all or nothing.  Whenever the answer is
    not 201, so in particular when the insert into [parents] or [teachers]
    is refused after the user row went in, every table has the rows it had
    before and no user row persists; when the answer is 201 the user row and
    the row of its role are both stored. *)
Theorem register_is_atomic (now : nat) (req : http_request) (db : DB) :
  (res_status (fst (post_register now req db)) <> 201 ->
   tables (snd (post_register now req db)) = tables db /\
   users (snd (post_register now req db)) = users db) /\
  (res_status (fst (post_register now req db)) = 201 ->
   registered db (snd (post_register now req db))).
Proof.
  unfold post_register.
  pose proof (register_try_atomic now req db) as H.
  destruct (register_try now req db) as [[e|res] d]; simpl.
  - split; [intros _ | discriminate].
    split; [exact H|]. unfold tables in H. congruence.
  - destruct H as [[H4 ->] | [H2 Hreg]].
    + split; [now intros _ | rewrite H4; discriminate].
    + split; [intro Hne; contradiction | intros _; exact Hreg].
Qed.

(** ** Status transitions *)

Lemma register_transaction_keeps_requests (now : nat)
    (un pw em fn ln : value) (ut : string) (ph ad su : value) (db : DB) :
  registration_requests
    (snd (register_transaction now un pw em fn ln ut ph ad su db))
  = registration_requests db.
Proof.
  unfold register_transaction, register_inserts. run_handler.
  destruct (storage_fails InsertUser _ db); [reflexivity|].
  destruct (String.eqb ut "parent"); [|destruct (String.eqb ut "teacher")];
    unfold query_write, ret;
    repeat match goal with
           | |- context [storage_fails ?s ?p ?d] =>
               destruct (storage_fails s p d)
           end; reflexivity.
Qed.

Lemma post_register_keeps_requests (now : nat) (req : http_request)
    (db : DB) :
  registration_requests (snd (post_register now req db))
  = registration_requests db.
Proof.
  unfold post_register, register_try, normalize_user_type.
  destruct (truthy (body req "user_type")).
  - destruct (body req "user_type") as [| |b|n|ut]; try reflexivity.
    unfold bind at 1. unfold ret at 1.
    destruct (negb (includes validUserTypes _)); [reflexivity|].
    destruct (_ || _); [reflexivity|].
    destruct (negb (value_eqb _ _)); [reflexivity|].
    unfold bind at 1, query_read.
    destruct (storage_fails SelectUserByUsernameOrEmail _ db);
      [reflexivity|].
    destruct (filter _ _); [|reflexivity].
    unfold bind at 1.
    destruct (body req "password") as [| |b|n|pw]; try reflexivity.
    unfold ret at 1.
    pose proof (register_transaction_keeps_requests now (body req "username")
                  (VStr (bcrypt_hash pw)) (body req "email")
                  (body req "firstName") (body req "lastName")
                  (toLowerCase (trim ut)) (body req "phone_number")
                  (body req "address") (body req "subject_specialization")
                  db) as H.
    destruct (register_transaction _ _ _ _ _ _ _ _ _ _ db) as [[e|res] d];
      exact H.
  - reflexivity.
Qed.

Lemma approve_requests (now : nat) (req : http_request) (db : DB) :
  requests_effect now req (registration_requests db)
    PATCH_registration_requests_approve
    (registration_requests
       (snd (patch_registration_requests_approve now req db))).
Proof.
  unfold patch_registration_requests_approve, approve_try. run_handler.
  destruct (storage_fails (UpdateRequestStatus "approved") _ db);
    [constructor|].
  destruct (storage_fails SelectRequestById _ _); [constructor|].
  destruct (find_request _ _) as [q|]; [|constructor].
  destruct (storage_fails SelectParentByEmail _ _); [constructor|].
  destruct (storage_fails InsertStudent _ _); [constructor|].
  destruct (find_parent _ _) as [p|]; [|constructor].
  destruct (storage_fails InsertNotification _ _); constructor.
Qed.

Lemma reject_requests (now : nat) (req : http_request) (db : DB) :
  requests_effect now req (registration_requests db)
    PATCH_registration_requests_reject
    (registration_requests
       (snd (patch_registration_requests_reject now req db))).
Proof.
  unfold patch_registration_requests_reject, reject_try. run_handler.
  destruct (storage_fails (UpdateRequestStatus "rejected") _ db);
    [constructor|].
  destruct (storage_fails SelectRequestById _ _); [constructor|].
  destruct (find_request _ _) as [q|]; [|constructor].
  destruct (storage_fails SelectParentByEmail _ _); [constructor|].
  destruct (find_parent _ _) as [p|]; [|constructor].
  destruct (storage_fails InsertNotification _ _); constructor.
Qed.

Lemma handler_requests (r : route) (now : nat) (req : http_request)
    (u : option user) (db : DB) :
  requests_effect now req (registration_requests db) r
    (registration_requests (snd (handler r now req u db))).
Proof.
  destruct r; simpl.
  - rewrite post_register_keeps_requests. constructor.
  - destruct u as [u|]; [|constructor].
    unfold get_notifications, query_read.
    destruct (storage_fails _ _ _); constructor.
  - destruct u as [u|]; [|constructor].
    unfold patch_notifications_read, query_write.
    destruct (storage_fails _ _ _); constructor.
  - unfold post_registration_request, query_write.
    destruct (_ || _); [constructor|].
    destruct (storage_fails _ _ _); [constructor|].
    simpl. now constructor.
  - unfold get_registration_requests, query_read.
    destruct (storage_fails _ _ _); constructor.
  - apply approve_requests.
  - apply reject_requests.
Qed.

Lemma app_requests (r : route) (now : nat) (req : http_request) (db : DB) :
  requests_effect now req (registration_requests db) r
    (registration_requests (snd (app r now req db))).
Proof.
  unfold app. destruct (middleware r) as [types|].
  - destruct (authenticate types req db); [constructor|].
    apply handler_requests.
  - apply handler_requests.
Qed.

Lemma find_request_app (j : nat) (l : list request) (q n : request) :
  find_request j l = Some q -> find_request j (l ++ [n]) = Some q.
Proof.
  unfold find_request. induction l as [|x l IH]; simpl; [discriminate|].
  destruct (Nat.eqb (request_id x) j); [trivial | exact IH].
Qed.

Lemma healthy_approve_requests (now : nat) (req : http_request) (db : DB)
    (q : request) :
  storage_healthy ->
  find_request (params_id req) (registration_requests db) = Some q ->
  registration_requests (snd (patch_registration_requests_approve now req db))
  = update_request_status "approved" now (params_id req)
      (registration_requests db).
Proof.
  intros Hok Hfind.
  unfold patch_registration_requests_approve, approve_try. run_handler.
  rewrite !Hok. simpl. rewrite find_request_update, Hfind. simpl.
  rewrite !Hok.
  destruct (find_parent _ _); simpl; rewrite ?Hok; reflexivity.
Qed.

Lemma healthy_reject_requests (now : nat) (req : http_request) (db : DB)
    (q : request) :
  storage_healthy ->
  find_request (params_id req) (registration_requests db) = Some q ->
  registration_requests (snd (patch_registration_requests_reject now req db))
  = update_request_status "rejected" now (params_id req)
      (registration_requests db).
Proof.
  intros Hok Hfind.
  unfold patch_registration_requests_reject, reject_try. run_handler.
  rewrite !Hok. simpl. rewrite find_request_update, Hfind. simpl.
  rewrite !Hok.
  destruct (find_parent _ _); simpl; rewrite ?Hok; reflexivity.
Qed.

(** C2, as amended: the status of a stored request is changed by approve
    and reject only, which set it to approved or rejected and stamp the
    processing time without looking at the status it had; no route sets a
    status that was not pending back to pending.  So a request leaves
    pending for good, but approve on a rejected request makes it approved
    and reject on an approved request makes it rejected. *)
Theorem status_changes_only_by_approve_or_reject (now : nat)
    (req : http_request) (db : DB) :
  (forall r j p,
     find_request j (registration_requests db) = Some p ->
     exists p',
       find_request j (registration_requests (snd (app r now req db)))
       = Some p' /\
       (p' = p
        \/ (r = PATCH_registration_requests_approve /\ j = params_id req
            /\ p' = set_status "approved" now p)
        \/ (r = PATCH_registration_requests_reject /\ j = params_id req
            /\ p' = set_status "rejected" now p)) /\
       (status p <> "pending" -> status p' <> "pending")) /\
  (forall q,
     storage_healthy ->
     find_request (params_id req) (registration_requests db) = Some q ->
     find_request (params_id req)
       (registration_requests
          (snd (app PATCH_registration_requests_approve now req db)))
     = Some (set_status "approved" now q) /\
     find_request (params_id req)
       (registration_requests
          (snd (app PATCH_registration_requests_reject now req db)))
     = Some (set_status "rejected" now q)).
Proof.
  split.
  - intros r j p Hp.
    pose proof (app_requests r now req db) as E.
    assert (Hupd : forall s,
              s <> "pending" ->
              exists p',
                find_request j (update_request_status s now (params_id req)
                                  (registration_requests db)) = Some p' /\
                (p' = p \/ (j = params_id req /\ p' = set_status s now p)) /\
                (status p <> "pending" -> status p' <> "pending")).
    { intros s Hs. rewrite find_request_update, Hp. simpl.
      rewrite (find_request_id _ _ _ Hp).
      destruct (Nat.eqb j (params_id req)) eqn:Ej.
      - apply Nat.eqb_eq in Ej. eexists. split; [reflexivity|].
        split; [right; now split | intros _; exact Hs].
      - eexists. split; [reflexivity|]. split; [now left | trivial]. }
    inversion E as [r' Hr Hl | n Hn Hr Hl | Hr Hl | Hr Hl].
    + rewrite Hp. exists p. split; [reflexivity|]. split; [now left|trivial].
    + rewrite (find_request_app _ _ _ n Hp). exists p.
      split; [reflexivity|]. split; [now left|trivial].
    + destruct (Hupd "approved") as [p' [H1 [H2 H3]]]; [discriminate|].
      exists p'. split; [exact H1|]. split; [|exact H3].
      destruct H2 as [-> | [-> ->]]; [now left | right; left; now repeat split].
    + destruct (Hupd "rejected") as [p' [H1 [H2 H3]]]; [discriminate|].
      exists p'. split; [exact H1|]. split; [|exact H3].
      destruct H2 as [-> | [-> ->]];
        [now left | right; right; now repeat split].
  - intros q Hok Hq. unfold app. simpl.
    rewrite (healthy_approve_requests now req db q Hok Hq).
    rewrite (healthy_reject_requests now req db q Hok Hq).
    rewrite !find_request_update, Hq. simpl.
    rewrite (find_request_id _ _ _ Hq), Nat.eqb_refl. now split.
Qed.

(** ** Further properties of the registration workflow *)

(** X1: a submission in which a required field is not truthy, be it missing,
    null, an empty string, zero or false, is answered 400 and stores
    nothing. *)
Theorem submit_falsy_field_rejected (now : nat) (req : http_request)
    (db : DB) :
  truthy (body req "student_name") = false \/
  truthy (body req "parent_name") = false \/
  truthy (body req "parent_email") = false \/
  truthy (body req "class_id") = false ->
  post_registration_request now req db
  = (mkResponse 400 (Message "All required fields must be provided"), db).
Proof.
  intro H. unfold post_registration_request.
  destruct H as [H | [H | [H | H]]]; rewrite H; simpl;
    rewrite ?Bool.orb_true_r; reflexivity.
Qed.

(** X2: submit answers 201, 400 or 500, and whenever the answer is not 201
    the database is left as it was. *)
Theorem submit_changes_only_on_201 (now : nat) (req : http_request)
    (db : DB) :
  (res_status (fst (post_registration_request now req db)) = 201
   \/ res_status (fst (post_registration_request now req db)) = 400
   \/ res_status (fst (post_registration_request now req db)) = 500) /\
  (res_status (fst (post_registration_request now req db)) <> 201 ->
   snd (post_registration_request now req db) = db).
Proof.
  unfold post_registration_request, query_write.
  destruct (_ || _); simpl; [split; [right; left|]; reflexivity|].
  destruct (storage_fails InsertRequest _ db); simpl.
  - split; [right; right|]; reflexivity.
  - split; [left; reflexivity|]. intro H. exfalso. now apply H.
Qed.

(** X3: a request that was submitted with success is in the next listing,
    with status pending and no processing time, and the listing is one row
    longer than the table was. *)
Theorem submitted_request_is_listed (now : nat) (req : http_request)
    (db : DB) :
  res_status (fst (post_registration_request now req db)) = 201 ->
  storage_fails SelectRequests []
    (snd (post_registration_request now req db)) = false ->
  exists rows q,
    fst (get_registration_requests
           (snd (post_registration_request now req db)))
    = mkResponse 200 (Requests rows) /\
    In q rows /\
    List.length rows = S (List.length (registration_requests db)) /\
    request_id q = next_request_id db /\
    status q = "pending" /\
    processed_at q = None /\
    requested_at q = now /\
    student_name q = body req "student_name" /\
    parent_email q = body req "parent_email".
Proof.
  unfold post_registration_request, query_write.
  destruct (_ || _ || _ || negb (truthy (body req "class_id"))) eqn:Hv;
    simpl; [discriminate|].
  destruct (storage_fails InsertRequest _ db); simpl; [discriminate|].
  intros _ Hok.
  unfold get_registration_requests, query_read. rewrite Hok. simpl.
  apply Bool.orb_false_iff in Hv. destruct Hv as [Hv _].
  apply Bool.orb_false_iff in Hv. destruct Hv as [Hv He].
  apply Bool.orb_false_iff in Hv. destruct Hv as [Hs _].
  apply Bool.negb_false_iff in Hs, He.
  eexists. eexists. split; [reflexivity|]. split.
  - eapply Permutation_in.
    + apply Permutation_sym, order_by_requested_at_desc_perm.
    + simpl. apply in_or_app. right. left. reflexivity.
  - split.
    + rewrite (Permutation_length
                 (order_by_requested_at_desc_perm _)).
      rewrite length_app. simpl. lia.
    + simpl. rewrite (truthy_to_sql _ Hs), (truthy_to_sql _ He).
      repeat split; reflexivity.
Qed.

(** X4: rejecting an identifier that names no stored request is answered
    500 and leaves the database as it was, whatever the storage does. *)
Theorem reject_unknown_request_fails (now : nat) (req : http_request)
    (db : DB) :
  find_request (params_id req) (registration_requests db) = None ->
  patch_registration_requests_reject now req db
  = (mkResponse 500 (Message "Failed to reject request"), db).
Proof.
  intro Hnone.
  unfold patch_registration_requests_reject, reject_try. run_handler.
  destruct (storage_fails (UpdateRequestStatus "rejected") _ db);
    [reflexivity|].
  unfold with_requests.
  rewrite (update_unknown_request _ _ _ _ Hnone), db_eta.
  destruct (storage_fails SelectRequestById _ db); [reflexivity|].
  now rewrite Hnone.
Qed.

Lemma approve_healthy_effect (now : nat) (req : http_request) (db : DB)
    (r : request) :
  storage_healthy ->
  find_request (params_id req) (registration_requests db) = Some r ->
  fst (patch_registration_requests_approve now req db)
  = mkResponse 200 (Message "Request approved and student added.") /\
  users (snd (patch_registration_requests_approve now req db)) = users db /\
  find_request (params_id req)
    (registration_requests
       (snd (patch_registration_requests_approve now req db)))
  = Some (set_status "approved" now r) /\
  students (snd (patch_registration_requests_approve now req db))
  = (students db ++
       [mkStudent (next_student_id db) (to_sql (student_name r))
          (option_map user_id (find_parent (parent_email r) (users db)))
          (to_sql (parent_name r)) (to_sql (parent_email r))
          (to_sql (student_dob r)) (to_sql (grade_level r))
          (to_sql (class_id r))])%list /\
  next_student_id (snd (patch_registration_requests_approve now req db))
  = S (next_student_id db).
Proof.
  intros Hok Hfind.
  assert (Hself : find_request (params_id req)
                    (update_request_status "approved" now (params_id req)
                       (registration_requests db))
                  = Some (set_status "approved" now r)).
  { rewrite find_request_update, Hfind. simpl.
    now rewrite (find_request_id _ _ _ Hfind), Nat.eqb_refl. }
  unfold patch_registration_requests_approve, approve_try. run_handler.
  rewrite !Hok. simpl. rewrite Hself. simpl. rewrite !Hok.
  destruct (find_parent (parent_email r) (users db)); simpl; rewrite ?Hok;
    simpl; rewrite Hself; repeat split; reflexivity.
Qed.

(** X5: approve does not look at the status, so approving the same stored
    request a second time succeeds again and adds a second student row with
    the same fields and the same parent. *)
Theorem approve_twice_duplicates_student (now1 now2 : nat)
    (req : http_request) (db : DB) (r : request) :
  storage_healthy ->
  find_request (params_id req) (registration_requests db) = Some r ->
  fst (patch_registration_requests_approve now2 req
         (snd (patch_registration_requests_approve now1 req db)))
  = mkResponse 200 (Message "Request approved and student added.") /\
  exists s1 s2,
    students
      (snd (patch_registration_requests_approve now2 req
              (snd (patch_registration_requests_approve now1 req db))))
    = (students db ++ [s1; s2])%list /\
    populated_from r s1 /\ populated_from r s2 /\
    st_parent_id s2 = st_parent_id s1 /\
    student_id s2 = S (student_id s1).
Proof.
  intros Hok Hfind.
  destruct (approve_healthy_effect now1 req db r Hok Hfind)
    as [_ [Hu1 [Hf1 [Hs1 Hn1]]]].
  destruct (approve_healthy_effect now2 req _ _ Hok Hf1)
    as [Hres [_ [_ [Hs2 _]]]].
  split; [exact Hres|].
  eexists. eexists. split.
  - rewrite Hs2, Hs1, <- app_assoc. simpl. reflexivity.
  - simpl. rewrite Hu1, Hn1. repeat split; reflexivity.
Qed.

(** X6: approve is not all or nothing.  When the storage takes every
    statement except the insert into [students], the call is answered 500,
    but the request stays marked approved with its processing time, and
    neither a student row nor a notification exists for it. *)
Theorem approve_without_student_stays_approved (now : nat)
    (req : http_request) (db : DB) (r : request) :
  (forall params d, storage_fails InsertStudent params d = true) ->
  (forall s params d, s <> InsertStudent -> storage_fails s params d = false) ->
  find_request (params_id req) (registration_requests db) = Some r ->
  fst (patch_registration_requests_approve now req db)
  = mkResponse 500 (Message "Failed to approve request") /\
  (exists r',
     find_request (params_id req)
       (registration_requests
          (snd (patch_registration_requests_approve now req db))) = Some r' /\
     status r' = "approved" /\ processed_at r' = Some now) /\
  students (snd (patch_registration_requests_approve now req db))
  = students db /\
  notifications (snd (patch_registration_requests_approve now req db))
  = notifications db.
Proof.
  intros Hbad Hgood Hfind.
  assert (Hself : find_request (params_id req)
                    (update_request_status "approved" now (params_id req)
                       (registration_requests db))
                  = Some (set_status "approved" now r)).
  { rewrite find_request_update, Hfind. simpl.
    now rewrite (find_request_id _ _ _ Hfind), Nat.eqb_refl. }
  unfold patch_registration_requests_approve, approve_try. run_handler.
  rewrite (Hgood (UpdateRequestStatus "approved")) by discriminate.
  rewrite (Hgood SelectRequestById) by discriminate.
  simpl. rewrite Hself. simpl.
  rewrite (Hgood SelectParentByEmail) by discriminate.
  rewrite Hbad. simpl.
  split; [reflexivity|]. split; [|split; reflexivity].
  exists (set_status "approved" now r). now rewrite Hself.
Qed.

(** ** Notifications *)

Lemma insert_notification_desc_perm (n : notification)
    (l : list notification) :
  Permutation (insert_notification_desc n l) (n :: l).
Proof.
  induction l as [|x l IH]; simpl; [apply Permutation_refl|].
  destruct (Nat.leb (created_at x) (created_at n)).
  - apply Permutation_refl.
  - apply perm_trans with (x :: n :: l); [now apply perm_skip|].
    apply perm_swap.
Qed.

Lemma order_by_created_at_desc_perm (l : list notification) :
  Permutation (order_by_created_at_desc l) l.
Proof.
  induction l as [|n l IH]; simpl; [apply perm_nil|].
  apply perm_trans with (n :: order_by_created_at_desc l).
  - apply insert_notification_desc_perm.
  - now apply perm_skip.
Qed.

Lemma insert_notification_desc_sorted (n : notification)
    (l : list notification) :
  StronglySorted newer_first l ->
  StronglySorted newer_first (insert_notification_desc n l).
Proof.
  induction 1 as [|x l Hs IH Hx]; simpl.
  - constructor; constructor.
  - destruct (Nat.leb (created_at x) (created_at n)) eqn:E.
    + apply Nat.leb_le in E. constructor; [now constructor|].
      constructor; [exact E|].
      apply Forall_forall. intros y Hy.
      rewrite Forall_forall in Hx. specialize (Hx y Hy).
      unfold newer_first in *. lia.
    + apply Nat.leb_gt in E. constructor; [exact IH|].
      apply Forall_forall. intros y Hy.
      apply (Permutation_in _ (insert_notification_desc_perm n l)) in Hy.
      destruct Hy as [<- | Hy].
      * unfold newer_first. lia.
      * rewrite Forall_forall in Hx. now apply Hx.
Qed.

(** X7: the notifications a user is shown are exactly the stored ones that
    are addressed to that user, the newest first; reading them changes
    nothing. *)
Theorem get_notifications_only_own (u : user) (db : DB) :
  storage_fails SelectNotifications [id_param (user_id u)] db = false ->
  exists rows,
    get_notifications u db = (mkResponse 200 (Notifications rows), db) /\
    (forall n, In n rows
               <-> In n (notifications db) /\ n_user_id n = user_id u) /\
    StronglySorted newer_first rows.
Proof.
  intro Hok. unfold get_notifications, query_read. rewrite Hok.
  eexists. split; [reflexivity|]. split.
  - intro n. split.
    + intro Hn.
      apply (Permutation_in _ (order_by_created_at_desc_perm _)) in Hn.
      apply filter_In in Hn. destruct Hn as [Hin Hn].
      split; [exact Hin | now apply Nat.eqb_eq].
    + intros [Hin Hn].
      apply Permutation_in with
        (l := filter (fun n0 => Nat.eqb (n_user_id n0) (user_id u))
                     (notifications db)).
      * apply Permutation_sym, order_by_created_at_desc_perm.
      * apply filter_In. split; [exact Hin | now apply Nat.eqb_eq].
  - induction (filter _ (notifications db)) as [|n l IH]; simpl;
      [constructor | now apply insert_notification_desc_sorted].
Qed.

(** X8: marking a notification as read can only set the read flag, and
    only on a notification that has the given identifier and is addressed to
    the caller: every other notification, in particular every one of
    another user, stays exactly as it was, and so does every other table.
    When the answer is 200 every such notification of the caller is read. *)
Theorem mark_read_touches_only_own (u : user) (req : http_request)
    (db : DB) :
  Forall2
    (fun n n' =>
       same_but_read n n' /\
       (n_user_id n <> user_id u \/ notification_id n <> params_id req ->
        n' = n))
    (notifications db)
    (notifications (snd (patch_notifications_read u req db))) /\
  (res_status (fst (patch_notifications_read u req db)) = 200 ->
   forall n',
     In n' (notifications (snd (patch_notifications_read u req db))) ->
     n_user_id n' = user_id u -> notification_id n' = params_id req ->
     is_read n' = true) /\
  (users (snd (patch_notifications_read u req db)),
   students (snd (patch_notifications_read u req db)),
   registration_requests (snd (patch_notifications_read u req db)))
  = (users db, students db, registration_requests db).
Proof.
  unfold patch_notifications_read, query_write.
  destruct (storage_fails UpdateNotificationRead _ db); simpl.
  - split; [|split; [discriminate | reflexivity]].
    induction (notifications db) as [|n l IH]; constructor; [|exact IH].
    split; [|reflexivity]. unfold same_but_read. repeat split. now left.
  - split; [|split; [|reflexivity]].
    + induction (notifications db) as [|n l IH]; simpl; constructor;
        [|exact IH].
      unfold mark_read.
      destruct (Nat.eqb (notification_id n) (params_id req)) eqn:Ei;
        destruct (Nat.eqb (n_user_id n) (user_id u)) eqn:Eu; simpl;
        (split; [unfold same_but_read; simpl; repeat split;
                 solve [now left | now right]|]);
        try reflexivity.
      apply Nat.eqb_eq in Ei, Eu. intros [H | H]; contradiction.
    + intros _ n' Hin Hu Hi. apply in_map_iff in Hin.
      destruct Hin as [n [<- _]]. unfold mark_read in *.
      destruct (Nat.eqb (notification_id n) (params_id req)
                && Nat.eqb (n_user_id n) (user_id u)) eqn:E;
        [reflexivity|].
      apply Nat.eqb_eq in Hu, Hi. rewrite Hu, Hi in E. discriminate.
Qed.

(** X9: a route that carries the guard answers 401 and changes nothing
    when the credential does not resolve to a stored user. *)
Theorem guarded_routes_need_credential (r : route) (now : nat)
    (req : http_request) (db : DB) :
  middleware r <> None ->
  (forall u, ~ resolves req db u) ->
  res_status (fst (app r now req db)) = 401 /\ snd (app r now req db) = db.
Proof.
  intros Hm Hno. unfold app.
  destruct (middleware r) as [types|]; [|contradiction].
  destruct (authenticate_unresolved types req db) as [[m Hm'] | [u Hu]];
    [|destruct (Hno u Hu)].
  rewrite Hm'. split; reflexivity.
Qed.

Lemma split_space_no_space (h : string) :
  no_space h = true -> split_space h = [h].
Proof.
  induction h as [|c h IH]; simpl; [reflexivity|].
  destruct (Ascii.eqb c " "%char); simpl; [discriminate|].
  intro H. now rewrite (IH H).
Qed.

Lemma split_space_scheme (scheme rest : string) :
  no_space scheme = true ->
  split_space (scheme ++ " " ++ rest) = scheme :: split_space rest.
Proof.
  induction scheme as [|c h IH]; simpl; [reflexivity|].
  destruct (Ascii.eqb c " "%char); simpl; [discriminate|].
  intro H. specialize (IH H). simpl in IH. now rewrite IH.
Qed.

(** X10: the guard takes the token from behind the first space of the
    Authorization header and never looks at the word in front of it: two
    headers that differ only in that word are treated alike. *)
Theorem guard_ignores_scheme (user_types : list string)
    (scheme1 scheme2 rest : string) (id : nat) (b : string -> value)
    (db : DB) :
  no_space scheme1 = true ->
  no_space scheme2 = true ->
  authenticate user_types (mkReq (Some (scheme1 ++ " " ++ rest)) id b) db
  = authenticate user_types (mkReq (Some (scheme2 ++ " " ++ rest)) id b) db.
Proof.
  intros H1 H2. unfold authenticate, bearer_token.
  unfold authorization.
  now rewrite (split_space_scheme _ rest H1), (split_space_scheme _ rest H2).
Qed.

(** X11: a header without any space carries no token: the guard answers
    401 'Authentication required' without verifying anything. *)
Theorem header_without_space_rejected (user_types : list string)
    (h : string) (id : nat) (b : string -> value) (db : DB) :
  no_space h = true ->
  authenticate user_types (mkReq (Some h) id b) db
  = Respond (mkResponse 401 (Message "Authentication required")).
Proof.
  intro H. unfold authenticate, bearer_token. simpl.
  now rewrite (split_space_no_space h H).
Qed.

(** ** Further properties of account registration *)

(** X12: a registration whose user type is missing or empty, or does not
    trim and lower-case to student, parent, teacher or admin, is answered
    400 'Invalid user type' before any other field is looked at, and stores
    nothing. *)
Theorem register_invalid_user_type (now : nat) (req : http_request)
    (db : DB) :
  truthy (body req "user_type") = false \/
  (exists s, body req "user_type" = VStr s /\
             ~ In (toLowerCase (trim s)) validUserTypes) ->
  post_register now req db
  = (mkResponse 400
       (InvalidUserType "Invalid user type" validUserTypes
          (body req "user_type")), db).
Proof.
  unfold post_register, register_try, normalize_user_type.
  intros [H | [s [Hs Hn]]].
  - rewrite H. reflexivity.
  - rewrite Hs. destruct (truthy (VStr s)); [|reflexivity].
    unfold bind at 1. unfold ret at 1.
    destruct (includes validUserTypes (VStr (toLowerCase (trim s)))) eqn:Hi;
      [|reflexivity].
    apply includes_spec in Hi. destruct Hi as [t [Hin Ht]].
    injection Ht as Ht. rewrite Ht in Hn. contradiction.
Qed.

Lemma register_transaction_users (now : nat)
    (un pw em fn ln : value) (ut : string) (ph ad su : value) (db : DB) :
  match register_transaction now un pw em fn ln ut ph ad su db with
  | (inl _, _) => True
  | (inr _, db') =>
      users db'
      = (users db ++
           [mkUser (next_user_id db) (to_sql un) (to_sql pw) (to_sql em)
                   (to_sql fn) (to_sql ln) (VStr ut)])%list
  end.
Proof.
  unfold register_transaction, register_inserts. run_handler.
  destruct (storage_fails InsertUser _ db); [exact I|].
  destruct (String.eqb ut "parent"); [|destruct (String.eqb ut "teacher")];
    unfold query_write, ret;
    repeat match goal with
           | |- context [storage_fails ?s ?p ?d] =>
               destruct (storage_fails s p d)
           end; solve [exact I | reflexivity].
Qed.

(** What a registration that was answered 201 has checked and stored. *)
Lemma register_success_shape (now : nat) (req : http_request) (db : DB) :
  res_status (fst (post_register now req db)) = 201 ->
  exists p s,
    body req "password" = VStr p /\
    body req "confirmPassword" = VStr p /\
    body req "user_type" = VStr s /\
    includes validUserTypes (VStr (toLowerCase (trim s))) = true /\
    truthy (body req "username") = true /\
    truthy (body req "email") = true /\
    filter (has_username_or_email (body req "username") (body req "email"))
           (users db) = [] /\
    users (snd (post_register now req db))
    = (users db ++
         [mkUser (next_user_id db) (body req "username")
                 (VStr (bcrypt_hash p)) (body req "email")
                 (to_sql (body req "firstName"))
                 (to_sql (body req "lastName"))
                 (VStr (toLowerCase (trim s)))])%list.
Proof.
  remember (post_register now req db) as run eqn:Hrun.
  unfold post_register, register_try, normalize_user_type in Hrun.
  destruct (truthy (body req "user_type")) eqn:Htype;
    [|subst run; simpl; discriminate].
  destruct (body req "user_type") as [| |b|n|ut] eqn:Eut;
    try discriminate; try (subst run; simpl; discriminate).
  unfold bind at 1 in Hrun. unfold ret at 1 in Hrun.
  destruct (includes validUserTypes (VStr (toLowerCase (trim ut))))
    eqn:Hinc; [|subst run; simpl; discriminate].
  cbn [negb] in Hrun.
  destruct (negb (truthy (body req "username")) || _ || _ || _ || _
            || false) eqn:Hreq;
    [subst run; simpl; discriminate|].
  destruct (value_eqb (body req "password") (body req "confirmPassword"))
    eqn:Hpw; [|subst run; simpl; discriminate].
  cbn [negb] in Hrun.
  unfold bind at 1, query_read in Hrun.
  destruct (storage_fails SelectUserByUsernameOrEmail _ db);
    [subst run; simpl; discriminate|].
  destruct (filter _ (users db)) eqn:Hf;
    [|subst run; simpl; discriminate].
  unfold bind at 1 in Hrun.
  destruct (body req "password") as [| |b|n|pw] eqn:Epw;
    try (subst run; simpl; discriminate).
  unfold ret at 1 in Hrun.
  pose proof (register_transaction_users now (body req "username")
                (VStr (bcrypt_hash pw)) (body req "email")
                (body req "firstName") (body req "lastName")
                (toLowerCase (trim ut)) (body req "phone_number")
                (body req "address") (body req "subject_specialization")
                db) as H.
  destruct (register_transaction _ _ _ _ _ _ _ _ _ _ db) as [[e|res] d];
    [subst run; simpl; discriminate|].
  subst run. intros _. simpl.
  repeat (apply Bool.orb_false_iff in Hreq; destruct Hreq as [Hreq ?]).
  assert (Hu : truthy (body req "username") = true)
    by now apply Bool.negb_false_iff.
  assert (He : truthy (body req "email") = true)
    by now apply Bool.negb_false_iff.
  apply value_eqb_eq in Hpw.
  exists pw, ut. repeat split; try reflexivity; try assumption.
  - now symmetry.
  - rewrite H. simpl.
    now rewrite (truthy_to_sql _ Hu), (truthy_to_sql _ He).
Qed.

(** X13: a registration answered 201 has appended one user row whose
    password cell is the bcrypt hash of the submitted password, never the
    password itself, and whose role is the submitted user type trimmed and
    lower-cased, one of student, parent, teacher and admin; the password
    and its confirmation were equal. *)
Theorem register_stores_hash_and_role (now : nat) (req : http_request)
    (db : DB) :
  res_status (fst (post_register now req db)) = 201 ->
  exists p s u,
    body req "password" = VStr p /\
    body req "confirmPassword" = VStr p /\
    body req "user_type" = VStr s /\
    users (snd (post_register now req db)) = (users db ++ [u])%list /\
    password u = VStr (bcrypt_hash p) /\
    user_type u = VStr (toLowerCase (trim s)) /\
    In (toLowerCase (trim s)) validUserTypes /\
    username u = body req "username" /\
    email u = body req "email".
Proof.
  intro H.
  destruct (register_success_shape now req db H)
    as [p [s [Hp [Hc [Hs [Hi [_ [_ [_ Hu]]]]]]]]].
  exists p, s. eexists. repeat split; try eassumption; try reflexivity.
  apply includes_spec in Hi. destruct Hi as [t [Hin Ht]].
  injection Ht as ->. exact Hin.
Qed.

Lemma ForallOrdPairs_snoc {A} (R : A -> A -> Prop) (l : list A) (x : A) :
  ForallOrdPairs R l -> Forall (fun y => R y x) l ->
  ForallOrdPairs R (l ++ [x]).
Proof.
  induction 1 as [|a l Ha Hl IH]; simpl; intro Hx.
  - constructor; constructor.
  - inversion Hx as [|a' l' Hax Hlx]; subst. constructor.
    + apply Forall_app. split; [exact Ha|]. constructor; [exact Hax|].
      constructor.
    + now apply IH.
Qed.

Lemma filter_nil_false {A} (p : A -> bool) (l : list A) :
  filter p l = [] -> Forall (fun x => p x = false) l.
Proof.
  induction l as [|a l IH]; simpl; [constructor|].
  destruct (p a) eqn:E; [discriminate|].
  intro H. constructor; [exact E | now apply IH].
Qed.

(** X14: registration keeps accounts distinct.  If no two stored users
    share a user name or an email, the same holds after any registration
    call, whatever its answer and whatever the storage does. *)
Theorem register_keeps_accounts_unique (now : nat) (req : http_request)
    (db : DB) :
  unique_accounts (users db) ->
  unique_accounts (users (snd (post_register now req db))).
Proof.
  intro Huniq.
  destruct (Nat.eq_dec (res_status (fst (post_register now req db))) 201)
    as [H201 | Hne].
  - destruct (register_success_shape now req db H201)
      as [p [s [_ [_ [_ [_ [_ [_ [Hf ->]]]]]]]]].
    apply ForallOrdPairs_snoc; [exact Huniq|].
    apply filter_nil_false in Hf.
    eapply Forall_impl; [|exact Hf].
    intros u Hu. exact Hu.
  - unfold post_register in *.
    pose proof (register_try_atomic now req db) as H.
    destruct (register_try now req db) as [[e|res] d]; simpl in *.
    + unfold tables in H.
      replace (users d) with (users db) by congruence. exact Huniq.
    + destruct H as [[_ ->] | [H _]]; [exact Huniq | contradiction].
Qed.

(** X15: a registration that passes the field checks but names the user
    name or the email of a stored user is answered 400 'Username or email
    already exists' and stores nothing. *)
Theorem register_duplicate_rejected (now : nat) (req : http_request)
    (db : DB) (s : string) (u : user) :
  body req "user_type" = VStr s ->
  In (toLowerCase (trim s)) validUserTypes ->
  truthy (body req "username") = true ->
  truthy (body req "password") = true ->
  truthy (body req "email") = true ->
  truthy (body req "firstName") = true ->
  truthy (body req "lastName") = true ->
  body req "confirmPassword" = body req "password" ->
  storage_fails SelectUserByUsernameOrEmail
    [body req "username"; body req "email"] db = false ->
  In u (users db) ->
  username u = body req "username" \/ email u = body req "email" ->
  post_register now req db
  = (mkResponse 400 (Message "Username or email already exists"), db).
Proof.
  intros Hs Hin Hun Hpw Hem Hfn Hln Hconf Hok Hu Hclash.
  assert (Hne : truthy (VStr s) = true).
  { destruct s; [|reflexivity]. simpl in Hin.
    repeat (destruct Hin as [Hin | Hin]; [discriminate|]). destruct Hin. }
  unfold post_register, register_try, normalize_user_type. cbv zeta.
  rewrite Hs, Hne. unfold bind at 1. unfold ret at 1.
  assert (Hi : includes validUserTypes (VStr (toLowerCase (trim s))) = true)
    by (apply includes_spec; eauto).
  rewrite Hi, Hun, Hpw, Hem, Hfn, Hln, Hconf. simpl.
  assert (Heq : value_eqb (body req "password") (body req "password") = true)
    by now apply value_eqb_eq.
  rewrite Heq. simpl.
  unfold bind at 1, query_read. rewrite Hok.
  assert (Hf : In u (filter (has_username_or_email (body req "username")
                               (body req "email")) (users db))).
  { apply filter_In. split; [exact Hu|].
    unfold has_username_or_email. apply Bool.orb_true_iff.
    destruct Hclash as [H | H]; [left | right]; rewrite H.
    - apply sql_eq_eq; [|reflexivity].
      destruct (body req "username"); try discriminate; reflexivity.
    - apply sql_eq_eq; [|reflexivity].
      destruct (body req "email"); try discriminate; reflexivity. }
  destruct (filter _ (users db)); [destruct Hf | reflexivity].
Qed.

(** ** Parents administration *)

Lemma is_parent_user_spec (id : nat) (u : user) :
  is_parent_user id u = true
  <-> user_id u = id /\ user_type u = VStr "parent".
Proof.
  unfold is_parent_user. rewrite Bool.andb_true_iff, Nat.eqb_eq.
  rewrite (sql_eq_eq (user_type u) (VStr "parent") eq_refl). reflexivity.
Qed.

(** X16: adding a parent answers 201 or 500.  With 201 it has appended one
    user row of type parent, without user name and password, and one
    details row with the identifier of that user.  With 500 the details
    table is as it was, but the user row may already be stored: the two
    inserts are not undone together. *)
Theorem post_parents_outcomes (req : http_request) (db : DB) :
  (res_status (fst (post_parents req db)) = 201 /\
   exists u p,
     users (snd (post_parents req db)) = (users db ++ [u])%list /\
     parents (snd (post_parents req db)) = (parents db ++ [p])%list /\
     parent_id p = user_id u /\
     user_id u = next_user_id db /\
     user_type u = VStr "parent" /\
     username u = VNull /\ password u = VNull /\
     email u = to_sql (body req "email"))
  \/
  (res_status (fst (post_parents req db)) = 500 /\
   parents (snd (post_parents req db)) = parents db /\
   (users (snd (post_parents req db)) = users db \/
    exists u,
      users (snd (post_parents req db)) = (users db ++ [u])%list /\
      user_type u = VStr "parent")).
Proof.
  unfold post_parents.
  destruct (parents_storage_fails InsertParentUser _ db); simpl.
  - right. split; [reflexivity|]. split; [reflexivity|]. now left.
  - destruct (parents_storage_fails InsertParentDetails _ _); simpl.
    + right. split; [reflexivity|]. split; [reflexivity|].
      right. eexists. split; reflexivity.
    + left. split; [reflexivity|]. eexists. eexists.
      repeat split; reflexivity.
Qed.

(** X17: when the storage takes the insert into [users] and refuses the
    one into [parents], adding a parent is answered 500 and yet leaves a
    new user row of type parent behind, with no details row. *)
Theorem post_parents_leaves_orphan_user (req : http_request) (db : DB) :
  (forall params d, parents_storage_fails InsertParentUser params d = false) ->
  (forall params d,
     parents_storage_fails InsertParentDetails params d = true) ->
  fst (post_parents req db)
  = mkResponse 500 (Message "Failed to add parent") /\
  parents (snd (post_parents req db)) = parents db /\
  exists u,
    users (snd (post_parents req db)) = (users db ++ [u])%list /\
    user_id u = next_user_id db /\
    user_type u = VStr "parent".
Proof.
  intros Hu Hp. unfold post_parents. rewrite Hu. simpl. rewrite Hp. simpl.
  split; [reflexivity|]. split; [reflexivity|].
  eexists. repeat split; reflexivity.
Qed.

(** X18: deleting a parent removes user rows only when it answers 200.
    Then exactly the details rows with the identifier are gone, and exactly
    the user rows that have the identifier and the type parent: a user
    with that identifier and another role is kept. *)
Theorem delete_parents_removes_only_that_parent (req : http_request)
    (db : DB) :
  (res_status (fst (delete_parents req db)) <> 200 ->
   users (snd (delete_parents req db)) = users db) /\
  (res_status (fst (delete_parents req db)) = 200 ->
   (forall p, In p (parents (snd (delete_parents req db)))
              <-> In p (parents db) /\ parent_id p <> params_id req) /\
   (forall u, In u (users (snd (delete_parents req db)))
              <-> In u (users db) /\
                  ~ (user_id u = params_id req /\
                     user_type u = VStr "parent"))).
Proof.
  unfold delete_parents.
  destruct (parents_storage_fails DeleteParentDetails _ db); simpl;
    [split; [reflexivity | discriminate]|].
  destruct (parents_storage_fails DeleteParentUser _ _); simpl;
    [split; [reflexivity | discriminate]|].
  split; [intro H; exfalso; now apply H|].
  intros _. split.
  - intro p. rewrite filter_In, Bool.negb_true_iff, Nat.eqb_neq.
    reflexivity.
  - intro u. rewrite filter_In. split.
    + intros [Hin Hn]. split; [exact Hin|]. intro Hc.
      apply is_parent_user_spec in Hc. rewrite Hc in Hn. discriminate.
    + intros [Hin Hn]. split; [exact Hin|].
      destruct (is_parent_user (params_id req) u) eqn:E; [|reflexivity].
      apply is_parent_user_spec in E. contradiction.
Qed.

(** X19: updating a parent never changes the identifier, user name,
    password or role of any user, and changes nothing at all on a user that
    does not have both the given identifier and the type parent.  When it
    answers 200, every parent user with the identifier carries the new
    names and email. *)
Theorem put_parents_touches_only_that_parent (req : http_request)
    (db : DB) :
  Forall2
    (fun u u' =>
       user_id u' = user_id u /\ username u' = username u /\
       password u' = password u /\ user_type u' = user_type u /\
       (user_id u <> params_id req \/ user_type u <> VStr "parent" ->
        u' = u))
    (users db) (users (snd (put_parents req db))) /\
  (res_status (fst (put_parents req db)) = 200 ->
   forall u',
     In u' (users (snd (put_parents req db))) ->
     user_id u' = params_id req -> user_type u' = VStr "parent" ->
     first_name u' = to_sql (body req "first_name") /\
     last_name u' = to_sql (body req "last_name") /\
     email u' = to_sql (body req "email")).
Proof.
  assert (Hmap : forall l,
            Forall2
              (fun u u' =>
                 user_id u' = user_id u /\ username u' = username u /\
                 password u' = password u /\ user_type u' = user_type u /\
                 (user_id u <> params_id req \/ user_type u <> VStr "parent"
                  -> u' = u))
              l (map (update_parent_user (params_id req)
                        (body req "first_name") (body req "last_name")
                        (body req "email")) l)).
  { induction l as [|u l IH]; simpl; constructor; [|exact IH].
    unfold update_parent_user.
    destruct (is_parent_user (params_id req) u) eqn:E; simpl.
    - apply is_parent_user_spec in E. destruct E as [E1 E2].
      repeat split. intros [H | H]; contradiction.
    - repeat split. }
  assert (Hid : forall l : list user,
            Forall2
              (fun u u' =>
                 user_id u' = user_id u /\ username u' = username u /\
                 password u' = password u /\ user_type u' = user_type u /\
                 (user_id u <> params_id req \/ user_type u <> VStr "parent"
                  -> u' = u))
              l l).
  { induction l as [|u l IH]; constructor; [repeat split | exact IH]. }
  unfold put_parents.
  destruct (parents_storage_fails UpdateParentUser _ db); simpl;
    [split; [apply Hid | discriminate]|].
  destruct (parents_storage_fails UpdateParentDetails _ _); simpl;
    [split; [apply Hmap | discriminate]|].
  split; [apply Hmap|].
  intros _ u' Hin Hi Ht. apply in_map_iff in Hin.
  destruct Hin as [u [<- _]]. unfold update_parent_user in *.
  destruct (is_parent_user (params_id req) u) eqn:E; simpl;
    [repeat split|].
  assert (E' : is_parent_user (params_id req) u = true)
    by (apply is_parent_user_spec; now split).
  rewrite E in E'. discriminate.
Qed.

Lemma filter_keeps_all {A} (p : A -> bool) (l : list A) :
  (forall x, In x l -> p x = true) -> filter p l = l.
Proof.
  induction l as [|a l IH]; simpl; intro H; [reflexivity|].
  rewrite (H a (or_introl eq_refl)). f_equal. apply IH.
  intros x Hx. apply H. now right.
Qed.

(** X20: when identifiers are fresh, that is when no stored user or
    details row already has the identifier the next user will get, and the
    storage takes every statement, adding a parent and then deleting the
    parent with the new identifier puts the users and the parents tables
    back as they were. *)
Theorem post_then_delete_parent_restores (req : http_request)
    (a : option string) (b : string -> value) (db : DB) :
  (forall s params d, parents_storage_fails s params d = false) ->
  (forall u, In u (users db) -> user_id u <> next_user_id db) ->
  (forall p, In p (parents db) -> parent_id p <> next_user_id db) ->
  fst (delete_parents (mkReq a (next_user_id db) b)
         (snd (post_parents req db)))
  = mkResponse 200 (Message "Parent deleted") /\
  users (snd (delete_parents (mkReq a (next_user_id db) b)
                (snd (post_parents req db)))) = users db /\
  parents (snd (delete_parents (mkReq a (next_user_id db) b)
                  (snd (post_parents req db)))) = parents db.
Proof.
  intros Hok Hu Hp.
  unfold delete_parents, post_parents. rewrite ?Hok. simpl.
  rewrite ?Hok. simpl. rewrite ?Hok. simpl.
  split; [reflexivity|].
  rewrite !filter_app. simpl.
  unfold is_parent_user. simpl. rewrite !Nat.eqb_refl. simpl.
  rewrite !app_nil_r. split.
  - apply filter_keeps_all. intros u Hin.
    apply Bool.negb_true_iff, Bool.andb_false_iff. left.
    apply Nat.eqb_neq. now apply Hu.
  - apply filter_keeps_all. intros p Hin.
    apply Bool.negb_true_iff, Nat.eqb_neq. now apply Hp.
Qed.

End Server.

(** ** The theorems at the sample data *)

Lemma approve_creates_student_and_notification_witness :
  let req := req_id 1 in
  let db := db_pending in
  let r := request_of_mary "pending" None in
  let run := patch_registration_requests_approve never_fails 200 req db in
  find_request (params_id req) (registration_requests db) = Some r /\
  is_null (parent_email r) = false /\
  fst run = mkResponse 200 (Message "Request approved and student added.") /\
  exists s,
    students (snd run) = (students db ++ [s])%list /\
    populated_from r s /\
    ((forall u, In u (users db) -> ~ parent_account_of r u) ->
     st_parent_id s = None /\ notifications (snd run) = notifications db) /\
    ((exists u, In u (users db) /\ parent_account_of r u) ->
     exists p n,
       In p (users db) /\ parent_account_of r p /\
       st_parent_id s = Some (user_id p) /\
       notifications (snd run) = (notifications db ++ [n])%list /\
       n_user_id n = user_id p /\ title n = "Registration Approved").
Proof.
  intros req db r run.
  split; [reflexivity|]. split; [reflexivity|].
  destruct (approve_creates_student_and_notification never_fails 200 req db r
              eq_refl eq_refl) as [Hres Heffect].
  split.
  - apply Hres. intros s params d. reflexivity.
  - apply Heffect. reflexivity.
Defined.

Lemma approve_after_reject_counterexample :
  exists q q',
    find_request 1 (registration_requests db_rejected) = Some q /\
    status q = "rejected" /\
    find_request 1
      (registration_requests
         (snd (patch_registration_requests_approve never_fails 200
                 (req_id 1) db_rejected))) = Some q' /\
    status q' = "approved".
Proof.
  eexists. eexists. repeat split; reflexivity.
Qed.

Lemma status_changes_only_by_approve_or_reject_witness :
  let q := request_of_mary "rejected" (Some 150) in
  find_request (params_id (req_id 1)) (registration_requests db_rejected)
  = Some q /\
  find_request (params_id (req_id 1))
    (registration_requests
       (snd (app never_fails sample_verify sample_hash
               PATCH_registration_requests_approve 200 (req_id 1)
               db_rejected)))
  = Some (set_status "approved" 200 q) /\
  find_request (params_id (req_id 1))
    (registration_requests
       (snd (app never_fails sample_verify sample_hash
               PATCH_registration_requests_reject 200 (req_id 1)
               db_rejected)))
  = Some (set_status "rejected" 200 q).
Proof.
  intro q. split; [reflexivity|].
  apply (proj2 (status_changes_only_by_approve_or_reject never_fails
                  sample_verify sample_hash 200 (req_id 1) db_rejected) q).
  - intros s params d. reflexivity.
  - reflexivity.
Defined.

Lemma approve_unknown_request_fails_witness :
  find_request (params_id (req_id 5)) (registration_requests db_pending)
  = None /\
  patch_registration_requests_approve parents_refused 200 (req_id 5)
    db_pending
  = (mkResponse 500 (Message "Failed to approve request"), db_pending).
Proof.
  split; [reflexivity|].
  apply (approve_unknown_request_fails parents_refused 200 (req_id 5)
           db_pending).
  reflexivity.
Defined.

Lemma reject_marks_and_notifies_witness :
  let req := req_id 2 in
  let db := db_pending in
  let r := request_of_stranger in
  let run := patch_registration_requests_reject never_fails 200 req db in
  find_request (params_id req) (registration_requests db) = Some r /\
  is_null (parent_email r) = false /\
  students (snd run) = students db /\
  fst run = mkResponse 200 (Message "Request rejected and parent notified.")
  /\
  exists r',
    find_request (params_id req) (registration_requests (snd run)) = Some r'
    /\ status r' = "rejected" /\ processed_at r' = Some 200.
Proof.
  intros req db r run.
  split; [reflexivity|]. split; [reflexivity|].
  destruct (reject_marks_and_notifies never_fails 200 req db r
              eq_refl eq_refl) as [Hstudents [Hres Heffect]].
  split; [exact Hstudents|]. split.
  - apply Hres. intros s params d. reflexivity.
  - destruct (Heffect eq_refl) as [r' [Hfind [_ [Hstatus [Hstamp _]]]]].
    exists r'. repeat split; assumption.
Defined.

Lemma submit_missing_field_rejected_witness :
  body submission_without_class "class_id" = VUndefined /\
  post_registration_request never_fails 300 submission_without_class
    db_pending
  = (mkResponse 400 (Message "All required fields must be provided"),
     db_pending).
Proof.
  split; [reflexivity|].
  apply (submit_missing_field_rejected never_fails 300
           submission_without_class db_pending).
  right. right. right. reflexivity.
Defined.

Lemma submit_answer_without_identifier_counterexample :
  fst (post_registration_request never_fails 300 submission db_pending)
  = fst (post_registration_request never_fails 300 submission db_later) /\
  res_body (fst (post_registration_request never_fails 300 submission
                   db_pending))
  = Message "Registration request submitted" /\
  map request_id
    (registration_requests
       (snd (post_registration_request never_fails 300 submission
               db_pending))) = [1; 2; 3] /\
  map request_id
    (registration_requests
       (snd (post_registration_request never_fails 300 submission
               db_later))) = [8].
Proof.
  repeat split; reflexivity.
Qed.

Lemma submit_persists_pending_request_witness :
  let req := submission in
  let db := db_pending in
  exists db' q,
    post_registration_request never_fails 300 req db
    = (mkResponse 201 (Message "Registration request submitted"), db') /\
    registration_requests db' = (registration_requests db ++ [q])%list /\
    status q = "pending" /\
    request_id q = next_request_id db /\
    requested_at q = 300 /\
    processed_at q = None /\
    student_name q = body req "student_name" /\
    parent_name q = body req "parent_name" /\
    parent_email q = body req "parent_email" /\
    class_id q = body req "class_id" /\
    (users db', parents db', teachers db', students db', notifications db')
    = (users db, parents db, teachers db, students db, notifications db).
Proof.
  intros req db.
  apply (submit_persists_pending_request never_fails 300 req db);
    reflexivity.
Defined.

Lemma list_returns_all_requests_latest_first_witness :
  never_fails SelectRequests [] db_pending = false /\
  exists rows,
    get_registration_requests never_fails db_pending
    = (mkResponse 200 (Requests rows), db_pending) /\
    Permutation rows (registration_requests db_pending) /\
    (forall q, In q (registration_requests db_pending) -> In q rows) /\
    StronglySorted later_first rows.
Proof.
  split; [reflexivity|].
  apply (list_returns_all_requests_latest_first never_fails db_pending).
  reflexivity.
Defined.

Lemma mary_resolves :
  resolves never_fails sample_verify (bearer "token-of-mary") db_pending mary.
Proof.
  exists "Bearer token-of-mary", "token-of-mary", 7, [], [tom].
  repeat split; try reflexivity.
  - discriminate.
  - intros v [].
Defined.

Lemma tom_resolves :
  resolves never_fails sample_verify (bearer "token-of-tom") db_pending tom.
Proof.
  exists "Bearer token-of-tom", "token-of-tom", 9, [mary], [].
  repeat split; try reflexivity.
  - discriminate.
  - intros v [<- | []]. discriminate.
Defined.

Lemma authenticate_guard_witness :
  authenticate never_fails sample_verify ["teacher"] (req_id 1) db_pending
  = Respond (mkResponse 401 (Message "Authentication required")) /\
  (exists m,
     authenticate never_fails sample_verify ["teacher"] (bearer "forged")
       db_pending
     = Respond (mkResponse 401 (Message m))) /\
  authenticate never_fails sample_verify ["teacher"] (bearer "token-of-mary")
    db_pending
  = Respond (mkResponse 403 (Message "Insufficient permissions")) /\
  authenticate never_fails sample_verify ["teacher"] (bearer "token-of-tom")
    db_pending
  = Next tom /\
  authenticate never_fails sample_verify [] (bearer "token-of-mary")
    db_pending
  = Next mary /\
  app never_fails sample_verify sample_hash GET_notifications 300
    (bearer "token-of-mary") db_pending
  = handler never_fails sample_hash GET_notifications 300
      (bearer "token-of-mary") (Some mary) db_pending.
Proof.
  split; [|split; [|split; [|split; [|split]]]].
  - apply (proj1 (authenticate_guard never_fails sample_verify sample_hash
                    ["teacher"] (req_id 1) db_pending)).
    reflexivity.
  - apply (proj1 (proj2 (authenticate_guard never_fails sample_verify
                           sample_hash ["teacher"] (bearer "forged")
                           db_pending))).
    intros u [h [t [uid [b [rest [Ha [Ht [_ [Hv _]]]]]]]]].
    injection Ha as <-. injection Ht as <-. discriminate Hv.
  - apply (proj2 (proj2 (authenticate_guard never_fails sample_verify
                           sample_hash ["teacher"] (bearer "token-of-mary")
                           db_pending)) mary mary_resolves).
    + discriminate.
    + intros [s [[<- | []] Hs]]. discriminate Hs.
  - apply (proj2 (proj2 (authenticate_guard never_fails sample_verify
                           sample_hash ["teacher"] (bearer "token-of-tom")
                           db_pending)) tom tom_resolves).
    right. exists "teacher". split; [now left | reflexivity].
  - apply (proj2 (proj2 (authenticate_guard never_fails sample_verify
                           sample_hash [] (bearer "token-of-mary")
                           db_pending)) mary mary_resolves).
    now left.
  - apply (proj2 (proj2 (authenticate_guard never_fails sample_verify
                           sample_hash [] (bearer "token-of-mary")
                           db_pending)) mary mary_resolves).
    + now left.
    + reflexivity.
Defined.

Lemma register_is_atomic_witness :
  let run := post_register parents_refused sample_hash 300
               registration_of_parent db_pending in
  res_status (fst run) <> 201 /\
  fst run
  = mkResponse 500 (MessageError "Registration failed" "storage error") /\
  tables (snd run) = tables db_pending /\
  users (snd run) = users db_pending.
Proof.
  intro run.
  assert (H : res_status (fst run) <> 201) by (vm_compute; discriminate).
  split; [exact H|]. split; [reflexivity|].
  apply (proj1 (register_is_atomic parents_refused sample_hash 300
                  registration_of_parent db_pending)).
  exact H.
Defined.

(** ** The further properties at the sample data *)

Lemma submit_falsy_field_rejected_witness :
  let req := mkReq None 0 (field "class_id" (VNum 0) (body submission)) in
  truthy (body req "class_id") = false /\
  post_registration_request never_fails 300 req db_pending
  = (mkResponse 400 (Message "All required fields must be provided"),
     db_pending).
Proof.
  intro req. split; [reflexivity|].
  apply (submit_falsy_field_rejected never_fails 300 req db_pending).
  right. right. right. reflexivity.
Defined.

Lemma submit_changes_only_on_201_witness :
  res_status
    (fst (post_registration_request never_fails 300 submission_without_class
            db_pending)) <> 201 /\
  snd (post_registration_request never_fails 300 submission_without_class
         db_pending) = db_pending.
Proof.
  assert (H : res_status
                (fst (post_registration_request never_fails 300
                        submission_without_class db_pending)) <> 201)
    by (vm_compute; discriminate).
  split; [exact H|].
  apply (proj2 (submit_changes_only_on_201 never_fails 300
                  submission_without_class db_pending)).
  exact H.
Defined.

Lemma submitted_request_is_listed_witness :
  exists rows q,
    fst (get_registration_requests never_fails
           (snd (post_registration_request never_fails 300 submission
                   db_pending)))
    = mkResponse 200 (Requests rows) /\
    In q rows /\
    List.length rows = S (List.length (registration_requests db_pending)) /\
    request_id q = next_request_id db_pending /\
    status q = "pending" /\
    processed_at q = None /\
    requested_at q = 300 /\
    student_name q = body submission "student_name" /\
    parent_email q = body submission "parent_email".
Proof.
  apply (submitted_request_is_listed never_fails 300 submission db_pending);
    reflexivity.
Defined.

Lemma reject_unknown_request_fails_witness :
  find_request (params_id (req_id 5)) (registration_requests db_pending)
  = None /\
  patch_registration_requests_reject never_fails 200 (req_id 5) db_pending
  = (mkResponse 500 (Message "Failed to reject request"), db_pending).
Proof.
  split; [reflexivity|].
  apply (reject_unknown_request_fails never_fails 200 (req_id 5) db_pending).
  reflexivity.
Defined.

Lemma approve_twice_duplicates_student_witness :
  exists s1 s2,
    students
      (snd (patch_registration_requests_approve never_fails 210 (req_id 1)
              (snd (patch_registration_requests_approve never_fails 200
                      (req_id 1) db_pending))))
    = (students db_pending ++ [s1; s2])%list /\
    populated_from (request_of_mary "pending" None) s1 /\
    populated_from (request_of_mary "pending" None) s2 /\
    st_parent_id s2 = st_parent_id s1 /\
    student_id s2 = S (student_id s1).
Proof.
  apply (approve_twice_duplicates_student never_fails 200 210 (req_id 1)
           db_pending (request_of_mary "pending" None)).
  - intros s params d. reflexivity.
  - reflexivity.
Defined.

Lemma approve_without_student_stays_approved_witness :
  fst (patch_registration_requests_approve students_refused 200 (req_id 1)
         db_pending)
  = mkResponse 500 (Message "Failed to approve request") /\
  (exists r',
     find_request (params_id (req_id 1))
       (registration_requests
          (snd (patch_registration_requests_approve students_refused 200
                  (req_id 1) db_pending))) = Some r' /\
     status r' = "approved" /\ processed_at r' = Some 200) /\
  students (snd (patch_registration_requests_approve students_refused 200
                   (req_id 1) db_pending))
  = students db_pending /\
  notifications (snd (patch_registration_requests_approve students_refused
                        200 (req_id 1) db_pending))
  = notifications db_pending.
Proof.
  apply (approve_without_student_stays_approved students_refused 200
           (req_id 1) db_pending (request_of_mary "pending" None)).
  - intros params d. reflexivity.
  - intros s params d Hs. destruct s; try reflexivity. now destruct Hs.
  - reflexivity.
Defined.

Lemma get_notifications_only_own_witness :
  exists rows,
    get_notifications never_fails mary db_notes
    = (mkResponse 200 (Notifications rows), db_notes) /\
    (forall n,
       In n rows
       <-> In n (notifications db_notes) /\ n_user_id n = user_id mary) /\
    StronglySorted newer_first rows.
Proof.
  apply (get_notifications_only_own never_fails mary db_notes).
  reflexivity.
Defined.

Lemma mark_read_touches_only_own_witness :
  res_status (fst (patch_notifications_read never_fails mary (req_id 2)
                     db_notes)) = 200 /\
  forall n',
    In n' (notifications
             (snd (patch_notifications_read never_fails mary (req_id 2)
                     db_notes))) ->
    n_user_id n' = user_id mary -> notification_id n' = params_id (req_id 2) ->
    is_read n' = true.
Proof.
  split; [reflexivity|].
  apply (proj1 (proj2 (mark_read_touches_only_own never_fails mary (req_id 2)
                         db_notes))).
  reflexivity.
Defined.

Lemma guarded_routes_need_credential_witness :
  res_status (fst (app never_fails sample_verify sample_hash
                     PATCH_notifications_read 300 (req_id 1) db_notes)) = 401
  /\
  snd (app never_fails sample_verify sample_hash PATCH_notifications_read 300
         (req_id 1) db_notes) = db_notes.
Proof.
  apply (guarded_routes_need_credential never_fails sample_verify sample_hash
           PATCH_notifications_read 300 (req_id 1) db_notes).
  - discriminate.
  - intros u [h [t [uid [b [rest [Ha _]]]]]]. discriminate Ha.
Defined.

Lemma guard_ignores_scheme_witness :
  authenticate never_fails sample_verify ["teacher"]
    (mkReq (Some ("Bearer" ++ " " ++ "token-of-tom")) 0 no_body) db_pending
  = authenticate never_fails sample_verify ["teacher"]
      (mkReq (Some ("Basic" ++ " " ++ "token-of-tom")) 0 no_body) db_pending.
Proof.
  apply (guard_ignores_scheme never_fails sample_verify ["teacher"]
           "Bearer" "Basic" "token-of-tom" 0 no_body db_pending);
    reflexivity.
Defined.

Lemma header_without_space_rejected_witness :
  authenticate never_fails sample_verify [] (mkReq (Some "token-of-tom") 0
                                               no_body) db_pending
  = Respond (mkResponse 401 (Message "Authentication required")).
Proof.
  apply (header_without_space_rejected never_fails sample_verify []
           "token-of-tom" 0 no_body db_pending).
  reflexivity.
Defined.

Lemma register_invalid_user_type_witness :
  post_register never_fails sample_hash 300
    (registration_of (VStr "headmaster") "secret") db_pending
  = (mkResponse 400
       (InvalidUserType "Invalid user type" validUserTypes
          (VStr "headmaster")), db_pending).
Proof.
  apply (register_invalid_user_type never_fails sample_hash 300
           (registration_of (VStr "headmaster") "secret") db_pending).
  right. exists "headmaster". split; [reflexivity|].
  intros [H | [H | [H | [H | []]]]]; discriminate H.
Defined.

Lemma register_stores_hash_and_role_witness :
  res_status (fst (post_register never_fails sample_hash 300
                     registration_of_admin db_pending)) = 201 /\
  exists p s u,
    body registration_of_admin "password" = VStr p /\
    body registration_of_admin "confirmPassword" = VStr p /\
    body registration_of_admin "user_type" = VStr s /\
    users (snd (post_register never_fails sample_hash 300
                  registration_of_admin db_pending))
    = (users db_pending ++ [u])%list /\
    password u = VStr (sample_hash p) /\
    user_type u = VStr (toLowerCase (trim s)) /\
    In (toLowerCase (trim s)) validUserTypes /\
    username u = body registration_of_admin "username" /\
    email u = body registration_of_admin "email".
Proof.
  split; [reflexivity|].
  apply (register_stores_hash_and_role never_fails sample_hash 300
           registration_of_admin db_pending).
  reflexivity.
Defined.

Lemma sample_accounts_unique : unique_accounts (users db_pending).
Proof.
  unfold unique_accounts. simpl.
  constructor; [|constructor; constructor].
  constructor; [reflexivity | constructor].
Defined.

Lemma register_keeps_accounts_unique_witness :
  unique_accounts
    (users (snd (post_register never_fails sample_hash 300
                   registration_of_parent db_pending))).
Proof.
  apply (register_keeps_accounts_unique never_fails sample_hash 300
           registration_of_parent db_pending).
  exact sample_accounts_unique.
Defined.

Lemma register_duplicate_rejected_witness :
  post_register never_fails sample_hash 300
    (registration_of (VStr "Teacher") "secret") db_pending
  = (mkResponse 400 (Message "Username or email already exists"),
     db_pending).
Proof.
  apply (register_duplicate_rejected never_fails sample_hash 300
           (registration_of (VStr "Teacher") "secret") db_pending
           "Teacher" mary); try reflexivity.
  - right. right. left. reflexivity.
  - left. reflexivity.
  - right. reflexivity.
Defined.

Lemma post_parents_leaves_orphan_user_witness :
  fst (post_parents details_refused new_parent db_pending)
  = mkResponse 500 (Message "Failed to add parent") /\
  parents (snd (post_parents details_refused new_parent db_pending))
  = parents db_pending /\
  exists u,
    users (snd (post_parents details_refused new_parent db_pending))
    = (users db_pending ++ [u])%list /\
    user_id u = next_user_id db_pending /\
    user_type u = VStr "parent".
Proof.
  apply (post_parents_leaves_orphan_user details_refused new_parent
           db_pending).
  - intros params d. reflexivity.
  - intros params d. reflexivity.
Defined.

Lemma delete_parents_removes_only_that_parent_witness :
  res_status (fst (delete_parents parents_never_fail (req_id 7) db_pending))
  = 200 /\
  (forall p,
     In p (parents (snd (delete_parents parents_never_fail (req_id 7)
                           db_pending)))
     <-> In p (parents db_pending) /\ parent_id p <> params_id (req_id 7)) /\
  (forall u,
     In u (users (snd (delete_parents parents_never_fail (req_id 7)
                         db_pending)))
     <-> In u (users db_pending) /\
         ~ (user_id u = params_id (req_id 7) /\
            user_type u = VStr "parent")).
Proof.
  split; [reflexivity|].
  apply (proj2 (delete_parents_removes_only_that_parent parents_never_fail
                  (req_id 7) db_pending)).
  reflexivity.
Defined.

Lemma put_parents_touches_only_that_parent_witness :
  res_status (fst (put_parents parents_never_fail new_parent db_pending))
  = 200 /\
  forall u',
    In u' (users (snd (put_parents parents_never_fail new_parent
                         db_pending))) ->
    user_id u' = params_id new_parent -> user_type u' = VStr "parent" ->
    first_name u' = to_sql (body new_parent "first_name") /\
    last_name u' = to_sql (body new_parent "last_name") /\
    email u' = to_sql (body new_parent "email").
Proof.
  split; [reflexivity|].
  apply (proj2 (put_parents_touches_only_that_parent parents_never_fail
                  new_parent db_pending)).
  reflexivity.
Defined.

Lemma post_then_delete_parent_restores_witness :
  fst (delete_parents parents_never_fail
         (mkReq None (next_user_id db_pending) no_body)
         (snd (post_parents parents_never_fail new_parent db_pending)))
  = mkResponse 200 (Message "Parent deleted") /\
  users (snd (delete_parents parents_never_fail
                (mkReq None (next_user_id db_pending) no_body)
                (snd (post_parents parents_never_fail new_parent
                        db_pending)))) = users db_pending /\
  parents (snd (delete_parents parents_never_fail
                  (mkReq None (next_user_id db_pending) no_body)
                  (snd (post_parents parents_never_fail new_parent
                          db_pending)))) = parents db_pending.
Proof.
  apply (post_then_delete_parent_restores parents_never_fail new_parent None
           no_body db_pending).
  - intros s params d. reflexivity.
  - intros u [<- | [<- | []]]; discriminate.
  - intros p [<- | []]. discriminate.
Defined.
